(** * brave-core: publisher-info table and Binance widget service

    A shallow embedding of two translation units of brave-core:

    - [binance_service.cc]  (class [BinanceService]): the PKCE code
      challenge, the token store on top of the encrypted preferences, and the
      completion handlers of the REST calls;
    - [database_server_publisher_info.cc] (class
      [DatabaseServerPublisherInfo]): schema migration, the list replace and
      the by-key lookup of the [server_publisher_info] table.

    Strings are [string], C++ [int] values are [Z], [std::map] is [gmap],
    a nullable pointer is an [option].  Asynchronous completions are written
    in continuation-passing style: a callback is a function, and running it
    is applying it. *)

From Stdlib Require Import ZArith List String Ascii Lia Bool.
From stdpp Require Import gmap strings list.

Local Open Scope string_scope.
Local Open Scope list_scope.
Local Open Scope Z_scope.

(** ** State passing

    A member function that writes its object, or a function that fills an
    object it is handed by pointer, is a function from the state before to a
    result and the state after. *)

Definition State (S A : Type) : Type := S -> A * S.

Definition ret {S A} (a : A) : State S A := fun s => (a, s).
Definition bind {S A B} (m : State S A) (k : A -> State S B) : State S B :=
  fun s => let (a, s') := m s in k a s'.

Declare Scope state_scope.
Delimit Scope state_scope with state.
Notation "x <- m ;; k" := (bind m (fun x => k))
  (at level 100, m at next level, right associativity) : state_scope.
Notation "m ;;; k" := (bind m (fun _ => k))
  (at level 100, right associativity) : state_scope.
Local Open Scope state_scope.

(** ** Bytes and strings *)

Module Bytes.

Definition byte_of_ascii (c : ascii) : Z := Z.of_N (N_of_ascii c).
Definition ascii_of_byte (b : Z) : ascii := ascii_of_N (Z.to_N (b mod 256)).

Definition of_string (s : string) : list Z :=
  map byte_of_ascii (list_ascii_of_string s).
Definition to_string (l : list Z) : string :=
  string_of_list_ascii (map ascii_of_byte l).

(** Big-endian split of [x] into [n] bytes. *)
Definition be_bytes (n : nat) (x : Z) : list Z :=
  map (fun i => Z.shiftr x (8 * Z.of_nat i) mod 256) (rev (seq 0 n)).

(** Big-endian 32-bit words of a byte string (a short tail is dropped;
    callers pass a multiple of four bytes). *)
Fixpoint be_words (l : list Z) : list Z :=
  match l with
  | a :: b :: c :: d :: t =>
      (Z.shiftl a 24 + Z.shiftl b 16 + Z.shiftl c 8 + d) :: be_words t
  | _ => []
  end.

(** The integral promotion applied when a [char] is passed as an [int],
    for a signed 8-bit [char].  (With an unsigned [char] the result is the
    byte itself; the two agree on every value below 128, and so on whether
    the result is 61.) *)
Definition char_to_int (c : ascii) : Z :=
  let n := byte_of_ascii c in if n <? 128 then n else n - 256.

End Bytes.

(** ** crypto::SHA256HashString

    Modelled from the spec: [crypto/sha2.h] belongs to the browser and is not
    part of the sources at hand; the spec names the function, SHA-256, which
    is written out here after FIPS 180-4. *)

Module SHA256.
Import Bytes.

Definition add32 (x y : Z) : Z := (x + y) mod 2 ^ 32.
Definition not32 (x : Z) : Z := Z.lxor x (2 ^ 32 - 1).
Definition ROTR (n x : Z) : Z :=
  Z.lor (Z.shiftr x n) (Z.shiftl x (32 - n) mod 2 ^ 32).
Definition SHR (n x : Z) : Z := Z.shiftr x n.

Definition Ch (x y z : Z) : Z := Z.lxor (Z.land x y) (Z.land (not32 x) z).
Definition Maj (x y z : Z) : Z :=
  Z.lxor (Z.lxor (Z.land x y) (Z.land x z)) (Z.land y z).
Definition Sigma0 (x : Z) : Z := Z.lxor (Z.lxor (ROTR 2 x) (ROTR 13 x)) (ROTR 22 x).
Definition Sigma1 (x : Z) : Z := Z.lxor (Z.lxor (ROTR 6 x) (ROTR 11 x)) (ROTR 25 x).
Definition sigma0 (x : Z) : Z := Z.lxor (Z.lxor (ROTR 7 x) (ROTR 18 x)) (SHR 3 x).
Definition sigma1 (x : Z) : Z := Z.lxor (Z.lxor (ROTR 17 x) (ROTR 19 x)) (SHR 10 x).

(** The constants are derived the way FIPS 180-4 defines them: the first
    32 bits of the fractional parts of the square roots (initial hash
    value) and cube roots (round constants) of the first primes. *)
Definition is_prime (n : Z) : bool :=
  (1 <? n) &&
  forallb (fun d => negb ((d * d <=? n) && (n mod d =? 0)))
          (map Z.of_nat (seq 2 16)).

Definition primes : list Z := filter is_prime (map Z.of_nat (seq 2 310)).

(** Integer cube root, found bit by bit from the top. *)
Definition icbrt (n : Z) : Z :=
  fold_left (fun r b => let r' := r + 2 ^ b in
                        if r' * r' * r' <=? n then r' else r)
            (rev (map Z.of_nat (seq 0 40))) 0.

Definition frac_sqrt32 (p : Z) : Z := Z.sqrt (p * 2 ^ 64) mod 2 ^ 32.
Definition frac_cbrt32 (p : Z) : Z := icbrt (p * 2 ^ 96) mod 2 ^ 32.

Definition H0 : list Z := Eval vm_compute in map frac_sqrt32 (firstn 8 primes).
Definition K : list Z := Eval vm_compute in map frac_cbrt32 primes.

(** Padding: a one bit, zero bytes up to 56 modulo 64, the bit length on
    eight bytes. *)
Definition pad (msg : list Z) : list Z :=
  let l := Z.of_nat (length msg) in
  msg ++ [128] ++ repeat 0 (Z.to_nat ((55 - l) mod 64)) ++ be_bytes 8 (8 * l).

Fixpoint blocks (n : nat) (ws : list Z) : list (list Z) :=
  match n with
  | O => []
  | S n' => firstn 16 ws :: blocks n' (skipn 16 ws)
  end.

Definition extend (W : list Z) (t : nat) : list Z :=
  let w i := nth (t - i) W 0 in
  W ++ [add32 (add32 (add32 (sigma1 (w 2%nat)) (w 7%nat)) (sigma0 (w 15%nat)))
              (w 16%nat)].

Definition schedule (block : list Z) : list Z :=
  fold_left extend (seq 16 48) block.

Definition round (v : list Z) (kw : Z * Z) : list Z :=
  match v with
  | [a; b; c; d; e; f; g; h] =>
      let T1 := add32 (add32 (add32 (add32 h (Sigma1 e)) (Ch e f g)) (fst kw))
                      (snd kw) in
      let T2 := add32 (Sigma0 a) (Maj a b c) in
      [add32 T1 T2; a; b; c; add32 d T1; e; f; g]
  | _ => v
  end.

Definition compress (H : list Z) (block : list Z) : list Z :=
  let v := fold_left round (combine K (schedule block)) H in
  map (fun p => add32 (fst p) (snd p)) (combine H v).

Definition digest (msg : list Z) : list Z :=
  let ws := be_words (pad msg) in
  let H := fold_left compress (blocks (length ws / 16) ws) H0 in
  concat (map (be_bytes 4) H).

(** Modelled from the spec: [crypto::SHA256HashString], the 32 raw bytes of
    SHA-256 of [str] written to the output buffer. *)
Definition SHA256HashString (str : string) : string :=
  to_string (digest (of_string str)).

End SHA256.

(** ** base::Base64Encode / base::Base64Decode

    Modelled from the spec: [base/base64.h] belongs to the browser and is not
    part of the sources at hand; the spec names the encoding, standard base64
    with [=] padding, which is written out here after RFC 4648. *)

Module Base64.
Import Bytes.

Definition alphabet : list ascii :=
  list_ascii_of_string
    "ABCDEFGHIJKLMNOPQRSTUVWXYZabcdefghijklmnopqrstuvwxyz0123456789+/".

Definition pad_char : ascii := "="%char.

Definition sextet (i : Z) : ascii := nth (Z.to_nat i) alphabet pad_char.

(** Three input bytes give four output characters; a tail of one or two
    bytes is completed with [=]. *)
Fixpoint encode (l : list Z) : list ascii :=
  match l with
  | [] => []
  | [a] =>
      [sextet (Z.shiftr a 2); sextet (Z.shiftl (Z.land a 3) 4);
       pad_char; pad_char]
  | [a; b] =>
      [sextet (Z.shiftr a 2);
       sextet (Z.lor (Z.shiftl (Z.land a 3) 4) (Z.shiftr b 4));
       sextet (Z.shiftl (Z.land b 15) 2); pad_char]
  | a :: b :: c :: t =>
      sextet (Z.shiftr a 2)
      :: sextet (Z.lor (Z.shiftl (Z.land a 3) 4) (Z.shiftr b 4))
      :: sextet (Z.lor (Z.shiftl (Z.land b 15) 2) (Z.shiftr c 6))
      :: sextet (Z.land c 63)
      :: encode t
  end.

(** Modelled from the spec: [base::Base64Encode]. *)
Definition Base64Encode (input : string) : string :=
  string_of_list_ascii (encode (of_string input)).

(** Position of a character in the alphabet. *)
Fixpoint index_of (c : ascii) (l : list ascii) : option Z :=
  match l with
  | [] => None
  | x :: t => if Ascii.eqb c x then Some 0
              else option_map Z.succ (index_of c t)
  end.

Definition unsextet (c : ascii) : option Z := index_of c alphabet.

(** A strict decoder: groups of four characters, padding only in the
    last group. *)
Fixpoint decode (l : list ascii) : option (list Z) :=
  match l with
  | [] => Some []
  | [c1; c2; c3; c4] =>
      match unsextet c1, unsextet c2 with
      | Some a, Some b =>
          let x := Z.lor (Z.shiftl a 2) (Z.shiftr b 4) in
          if Ascii.eqb c3 pad_char then
            if Ascii.eqb c4 pad_char then Some [x] else None
          else
            match unsextet c3 with
            | Some c =>
                let y := Z.lor (Z.shiftl (Z.land b 15) 4) (Z.shiftr c 2) in
                if Ascii.eqb c4 pad_char then Some [x; y]
                else
                  match unsextet c4 with
                  | Some d => Some [x; y; Z.lor (Z.shiftl (Z.land c 3) 6) d]
                  | None => None
                  end
            | None => None
            end
      | _, _ => None
      end
  | c1 :: c2 :: c3 :: c4 :: t =>
      match unsextet c1, unsextet c2, unsextet c3, unsextet c4, decode t with
      | Some a, Some b, Some c, Some d, Some r =>
          Some (Z.lor (Z.shiftl a 2) (Z.shiftr b 4)
                :: Z.lor (Z.shiftl (Z.land b 15) 4) (Z.shiftr c 2)
                :: Z.lor (Z.shiftl (Z.land c 3) 6) d
                :: r)
      | _, _, _, _, _ => None
      end
  | _ => None
  end.

(** A decoder for the examples; the token store below takes its decoder
    from the host. *)
Definition Base64Decode (input : string) : option string :=
  option_map to_string (decode (list_ascii_of_string input)).

End Base64.

(** ** BinanceService::GetCodeChallenge *)

Module CodeChallenge.
Import Bytes.

(** [std::replace(first, last, old_value, new_value)]. *)
Definition std_replace (old_value new_value : ascii) (s : list ascii)
  : list ascii :=
  map (fun c => if Ascii.eqb c old_value then new_value else c) s.

(** [std::find_if]: offset of the first element satisfying [p], the length
    of the range when there is none. *)
Fixpoint std_find_if {A} (p : A -> bool) (l : list A) : nat :=
  match l with
  | [] => O
  | x :: t => if p x then O else S (std_find_if p t)
  end.

(** [std::find_if(s.rbegin(), s.rend(), p).base()] as an offset from
    [s.begin()]: a reverse iterator [k] steps after [rbegin()] has its base
    [k] steps before [end()]. *)
Definition rfind_if_base {A} (p : A -> bool) (s : list A) : nat :=
  (length s - std_find_if p (rev s))%nat.

(** [s.erase(s.begin() + pos, s.end())]. *)
Definition erase_to_end {A} (pos : nat) (s : list A) : list A := firstn pos s.

(** The lambda [[](int ch) { return ch != '='; }]. *)
Definition not_equals_sign (ch : Z) : bool := negb (ch =? 61).

Definition GetCodeChallenge (code_verifier : string) : string :=
  let raw := SHA256.SHA256HashString code_verifier in
  let code_challenge := list_ascii_of_string (Base64.Base64Encode raw) in
  let code_challenge := std_replace "+"%char "-"%char code_challenge in
  let code_challenge := std_replace "/"%char "_"%char code_challenge in
  let code_challenge :=
    erase_to_end
      (rfind_if_base (fun c => not_equals_sign (char_to_int c)) code_challenge)
      code_challenge in
  string_of_list_ascii code_challenge.

(** The specification's wording, stated on its own: base64url without
    padding. *)
Definition url_safe (c : ascii) : ascii :=
  if Ascii.eqb c "+"%char then "-"%char
  else if Ascii.eqb c "/"%char then "_"%char
  else c.

Fixpoint strip_trailing_padding (s : list ascii) : list ascii :=
  match s with
  | [] => []
  | c :: t =>
      match strip_trailing_padding t with
      | [] => if Ascii.eqb c "="%char then [] else [c]
      | t' => c :: t'
      end
  end.

Definition base64url_nopad (data : string) : string :=
  string_of_list_ascii
    (strip_trailing_padding
       (map url_safe (list_ascii_of_string (Base64.Base64Encode data)))).

End CodeChallenge.

(** ** BinanceService: state, host interfaces and the token store *)

Module Binance.

(** The members of [BinanceService] written by the functions below.  The
    client id, the two host names and the list of pending loaders are only
    read when a request is built. *)
Record BinanceService := mkBinanceService {
  auth_token_ : string;
  access_token_ : string;
  refresh_token_ : string;
  code_challenge_ : string;
  code_verifier_ : string;
}.

(** The static methods of [BinanceJSONParser], named for the trace. *)
Inductive ParserMethod :=
| GetAccountBalancesFromJSON_m
| GetTokensFromJSON_m
| GetTickerPriceFromJSON_m
| GetTickerVolumeFromJSON_m
| GetDepositInfoFromJSON_m
| GetQuoteInfoFromJSON_m
| GetConfirmStatusFromJSON_m
| GetConvertAssetsFromJSON_m
| RevokeTokenFromJSON_m.

(** What a completion callback was run with; used by the recording
    callbacks below. *)
Inductive Completion :=
| AccountBalances (balances : gmap string string) (success : bool)
| AccessToken (success : bool)
| ConvertQuote (quote_id quote_price total_fee total_amount : string)
| TickerPrice (symbol_pair_price : string)
| TickerVolume (symbol_pair_volume : string)
| DepositInfo (deposit_address deposit_url : string) (success : bool)
| ConvertConfirmed (success_status : bool) (error_message : string)
| ConvertAssets (assets : gmap string (list string))
| TokenRevoked (success : bool).

Inductive Event :=
| LogError (message : string)
| Parsed (method : ParserMethod) (json : string)
| CallbackRun (c : Completion).

(** The service object, the profile's preference store and what has been
    observed so far. *)
Record World := mkWorld {
  self : BinanceService;
  prefs : gmap string string;
  trace : list Event;
}.

(** State passing over [World]. *)
Definition M (A : Type) : Type := State World A.

Definition emit (e : Event) : M unit :=
  fun w => (tt, mkWorld (self w) (prefs w) (trace w ++ [e])).

Definition update_self (f : BinanceService -> BinanceService) : M unit :=
  fun w => (tt, mkWorld (f (self w)) (prefs w) (trace w)).

Definition set_access_token_ (v : string) : M unit :=
  update_self (fun s => mkBinanceService (auth_token_ s) v (refresh_token_ s)
                                         (code_challenge_ s) (code_verifier_ s)).
Definition set_refresh_token_ (v : string) : M unit :=
  update_self (fun s => mkBinanceService (auth_token_ s) (access_token_ s) v
                                         (code_challenge_ s) (code_verifier_ s)).
Definition set_code_challenge_ (v : string) : M unit :=
  update_self (fun s => mkBinanceService (auth_token_ s) (access_token_ s)
                                         (refresh_token_ s) v (code_verifier_ s)).
Definition set_code_verifier_ (v : string) : M unit :=
  update_self (fun s => mkBinanceService (auth_token_ s) (access_token_ s)
                                         (refresh_token_ s) (code_challenge_ s) v).

(** The service after both token members were assigned. *)
Definition with_tokens (s : BinanceService) (access refresh : string)
  : BinanceService :=
  mkBinanceService (auth_token_ s) access refresh
                   (code_challenge_ s) (code_verifier_ s).

(** [LOG(ERROR) << message]. *)
Definition LOG_ERROR (message : string) : M unit := emit (LogError message).

(** Modelled from the spec: [PrefService::GetString] is not part of the
    sources at hand; the two token preferences are string preferences, read
    as the stored value, else as the registered default, the empty string. *)
Definition prefs_GetString (path : string) : M string :=
  fun w => (default "" (prefs w !! path), w).

(** Modelled from the spec: [PrefService::SetString] is not part of the
    sources at hand; it stores the value under the preference's name. *)
Definition prefs_SetString (path value : string) : M unit :=
  fun w => (tt, mkWorld (self w) (<[path := value]> (prefs w)) (trace w)).

(** What the service takes from the browser: the names of the two
    preferences ([brave/common/pref_names.h]), the platform's [OSCrypt] and
    [base::Base64Decode].

    [EncryptString] and [Base64Decode] write a local of the caller that is
    dropped when they fail, so they are functions to an [option].
    [DecryptString ciphertext out] is handed a member of the service as its
    output: it returns whether it succeeded together with what the output
    holds afterwards, [out] being what it held before. *)
Class Host := {
  kBinanceAccessToken : string;
  kBinanceRefreshToken : string;
  EncryptString : string -> option string;
  DecryptString : string -> string -> bool * string;
  Base64Decode : string -> option string;
}.

Section TokenStore.
Context `{Host}.

Definition SetAccessTokens (access_token refresh_token : string) : M bool :=
  set_access_token_ access_token ;;;
  set_refresh_token_ refresh_token ;;;
  match EncryptString access_token with
  | None =>
      LOG_ERROR "Could not encrypt and save Binance token info" ;;;
      ret false
  | Some encrypted_access_token =>
      match EncryptString refresh_token with
      | None =>
          LOG_ERROR "Could not encrypt and save Binance token info" ;;;
          ret false
      | Some encrypted_refresh_token =>
          let encoded_encrypted_access_token :=
            Base64.Base64Encode encrypted_access_token in
          let encoded_encrypted_refresh_token :=
            Base64.Base64Encode encrypted_refresh_token in
          prefs_SetString kBinanceAccessToken encoded_encrypted_access_token ;;;
          prefs_SetString kBinanceRefreshToken encoded_encrypted_refresh_token ;;;
          ret true
      end
  end.

(** [OSCrypt::DecryptString(ciphertext, &access_token_)]. *)
Definition decrypt_to_access_token_ (ciphertext : string) : M bool :=
  fun w =>
    let (ok, out) := DecryptString ciphertext (access_token_ (self w)) in
    (ok, snd (set_access_token_ out w)).

(** [OSCrypt::DecryptString(ciphertext, &refresh_token_)]. *)
Definition decrypt_to_refresh_token_ (ciphertext : string) : M bool :=
  fun w =>
    let (ok, out) := DecryptString ciphertext (refresh_token_ (self w)) in
    (ok, snd (set_refresh_token_ out w)).

Definition LoadTokensFromPrefs : M bool :=
  encoded_encrypted_access_token <- prefs_GetString kBinanceAccessToken ;;
  encoded_encrypted_refresh_token <- prefs_GetString kBinanceRefreshToken ;;
  match Base64Decode encoded_encrypted_access_token with
  | None =>
      LOG_ERROR "Could not Base64 decode Binance token info." ;;;
      ret false
  | Some encrypted_access_token =>
      match Base64Decode encoded_encrypted_refresh_token with
      | None =>
          LOG_ERROR "Could not Base64 decode Binance token info." ;;;
          ret false
      | Some encrypted_refresh_token =>
          ok <- decrypt_to_access_token_ encrypted_access_token ;;
          if negb ok then
            LOG_ERROR "Could not decrypt and save Binance token info." ;;;
            ret false
          else
            ok <- decrypt_to_refresh_token_ encrypted_refresh_token ;;
            if negb ok then
              LOG_ERROR "Could not decrypt and save Binance token info." ;;;
              ret false
            else ret true
      end
  end.

End TokenStore.

(** *** Completion handlers of the REST calls *)

(** The static methods of [BinanceJSONParser]
    ([binance_json_parser.h]).  Each takes the response body and the current
    content of its output parameters, and returns its [bool] result with
    what the output parameters hold afterwards. *)
Class BinanceJSONParser := {
  GetAccountBalancesFromJSON :
    string -> gmap string string -> bool * gmap string string;
  GetTokensFromJSON : string -> string -> string -> bool * string;
  GetTickerPriceFromJSON : string -> string -> bool * string;
  GetTickerVolumeFromJSON : string -> string -> bool * string;
  GetDepositInfoFromJSON : string -> string * string -> bool * (string * string);
  GetQuoteInfoFromJSON :
    string -> string * string * string * string ->
    bool * (string * string * string * string);
  GetConfirmStatusFromJSON : string -> string * bool -> bool * (string * bool);
  GetConvertAssetsFromJSON :
    string -> gmap string (list string) -> bool * gmap string (list string);
  RevokeTokenFromJSON : string -> bool -> bool * bool;
}.

(** A call of a parser method on [json]: the call is observed and the
    [bool] result is dropped, as every caller does. *)
Definition parse {A} (method : ParserMethod) (json : string)
    (result : bool * A) : M A :=
  emit (Parsed method json) ;;; ret (snd result).

Section Handlers.
Context `{Host} `{BinanceJSONParser}.

Definition OnGetAccountBalances
    (callback : gmap string string -> bool -> M unit)
    (status : Z) (body : string) (headers : gmap string string) : M unit :=
  let balances : gmap string string := ∅ in
  let success := (200 <=? status) && (status <=? 299) in
  balances <-
    (if success
     then parse GetAccountBalancesFromJSON_m body
                (GetAccountBalancesFromJSON body balances)
     else ret balances) ;;
  callback balances success.

Definition OnGetAccessToken
    (callback : bool -> M unit)
    (status : Z) (body : string) (headers : gmap string string) : M unit :=
  let access_token := "" in
  let refresh_token := "" in
  access_token <-
    (if (200 <=? status) && (status <=? 299)
     then
       access_token <-
         parse GetTokensFromJSON_m body
               (GetTokensFromJSON body access_token "access_token") ;;
       refresh_token <-
         parse GetTokensFromJSON_m body
               (GetTokensFromJSON body refresh_token "refresh_token") ;;
       SetAccessTokens access_token refresh_token ;;;
       ret access_token
     else ret access_token) ;;
  callback (negb (String.eqb access_token "")).

Definition OnGetConvertQuote
    (callback : string -> string -> string -> string -> M unit)
    (status : Z) (body : string) (headers : gmap string string) : M unit :=
  let quote_id := "" in
  let quote_price := "" in
  let total_fee := "" in
  let total_amount := "" in
  q <-
    (if (200 <=? status) && (status <=? 299)
     then parse GetQuoteInfoFromJSON_m body
                (GetQuoteInfoFromJSON
                   body (quote_id, quote_price, total_fee, total_amount))
     else ret (quote_id, quote_price, total_fee, total_amount)) ;;
  let '(quote_id, quote_price, total_fee, total_amount) := q in
  callback quote_id quote_price total_fee total_amount.

Definition OnGetTickerPrice
    (callback : string -> M unit)
    (status : Z) (body : string) (headers : gmap string string) : M unit :=
  let symbol_pair_price := "0.00" in
  symbol_pair_price <-
    (if (200 <=? status) && (status <=? 299)
     then parse GetTickerPriceFromJSON_m body
                (GetTickerPriceFromJSON body symbol_pair_price)
     else ret symbol_pair_price) ;;
  callback symbol_pair_price.

Definition OnGetTickerVolume
    (callback : string -> M unit)
    (status : Z) (body : string) (headers : gmap string string) : M unit :=
  let symbol_pair_volume := "0" in
  symbol_pair_volume <-
    (if (200 <=? status) && (status <=? 299)
     then parse GetTickerVolumeFromJSON_m body
                (GetTickerVolumeFromJSON body symbol_pair_volume)
     else ret symbol_pair_volume) ;;
  callback symbol_pair_volume.

Definition OnGetDepositInfo
    (callback : string -> string -> bool -> M unit)
    (status : Z) (body : string) (headers : gmap string string) : M unit :=
  let deposit_address := "" in
  let deposit_url := "" in
  let success := (200 <=? status) && (status <=? 299) in
  d <-
    (if success
     then parse GetDepositInfoFromJSON_m body
                (GetDepositInfoFromJSON body (deposit_address, deposit_url))
     else ret (deposit_address, deposit_url)) ;;
  let '(deposit_address, deposit_url) := d in
  callback deposit_address deposit_url success.

Definition OnConfirmConvert
    (callback : bool -> string -> M unit)
    (status : Z) (body : string) (headers : gmap string string) : M unit :=
  let success_status := false in
  let error_message := "" in
  c <-
    (if (200 <=? status) && (status <=? 299)
     then parse GetConfirmStatusFromJSON_m body
                (GetConfirmStatusFromJSON body (error_message, success_status))
     else ret (error_message, success_status)) ;;
  let '(error_message, success_status) := c in
  callback success_status error_message.

Definition OnGetConvertAssets
    (callback : gmap string (list string) -> M unit)
    (status : Z) (body : string) (headers : gmap string string) : M unit :=
  let assets : gmap string (list string) := ∅ in
  assets <-
    (if (200 <=? status) && (status <=? 299)
     then parse GetConvertAssetsFromJSON_m body
                (GetConvertAssetsFromJSON body assets)
     else ret assets) ;;
  callback assets.

Definition OnRevokeToken
    (callback : bool -> M unit)
    (status : Z) (body : string) (headers : gmap string string) : M unit :=
  let success := false in
  success <-
    (if (200 <=? status) && (status <=? 299)
     then parse RevokeTokenFromJSON_m body (RevokeTokenFromJSON body success)
     else ret success) ;;
  (if success
   then
     set_code_challenge_ "" ;;;
     set_code_verifier_ "" ;;;
     SetAccessTokens "" "" ;;;
     ret tt
   else ret tt) ;;;
  callback success.

End Handlers.

(** *** The REST completion handlers under one name *)

Inductive RestHandler :=
| AccountBalancesHandler | TickerPriceHandler | TickerVolumeHandler
| ConvertQuoteHandler | DepositInfoHandler | ConfirmConvertHandler
| ConvertAssetsHandler | RevokeTokenHandler.

(** The callback that only records what it was run with. *)
Definition recording (c : Completion) : M unit := emit (CallbackRun c).

(** Handler [h] completing with a recording callback. *)
Definition complete `{Host} `{BinanceJSONParser} (h : RestHandler)
    (status : Z) (body : string) (headers : gmap string string) : M unit :=
  match h with
  | AccountBalancesHandler =>
      OnGetAccountBalances (fun b s => recording (AccountBalances b s))
                           status body headers
  | TickerPriceHandler =>
      OnGetTickerPrice (fun p => recording (TickerPrice p)) status body headers
  | TickerVolumeHandler =>
      OnGetTickerVolume (fun v => recording (TickerVolume v)) status body headers
  | ConvertQuoteHandler =>
      OnGetConvertQuote (fun i p f a => recording (ConvertQuote i p f a))
                        status body headers
  | DepositInfoHandler =>
      OnGetDepositInfo (fun a u s => recording (DepositInfo a u s))
                       status body headers
  | ConfirmConvertHandler =>
      OnConfirmConvert (fun s e => recording (ConvertConfirmed s e))
                       status body headers
  | ConvertAssetsHandler =>
      OnGetConvertAssets (fun a => recording (ConvertAssets a)) status body headers
  | RevokeTokenHandler =>
      OnRevokeToken (fun s => recording (TokenRevoked s)) status body headers
  end.

(** The defaults a handler's callback receives when nothing is parsed. *)
Definition defaults (h : RestHandler) : Completion :=
  match h with
  | AccountBalancesHandler => AccountBalances ∅ false
  | TickerPriceHandler => TickerPrice "0.00"
  | TickerVolumeHandler => TickerVolume "0"
  | ConvertQuoteHandler => ConvertQuote "" "" "" ""
  | DepositInfoHandler => DepositInfo "" "" false
  | ConfirmConvertHandler => ConvertConfirmed false ""
  | ConvertAssetsHandler => ConvertAssets ∅
  | RevokeTokenHandler => TokenRevoked false
  end.

(** The parser method a handler uses. *)
Definition parser_of (h : RestHandler) : ParserMethod :=
  match h with
  | AccountBalancesHandler => GetAccountBalancesFromJSON_m
  | TickerPriceHandler => GetTickerPriceFromJSON_m
  | TickerVolumeHandler => GetTickerVolumeFromJSON_m
  | ConvertQuoteHandler => GetQuoteInfoFromJSON_m
  | DepositInfoHandler => GetDepositInfoFromJSON_m
  | ConfirmConvertHandler => GetConfirmStatusFromJSON_m
  | ConvertAssetsHandler => GetConvertAssetsFromJSON_m
  | RevokeTokenHandler => RevokeTokenFromJSON_m
  end.

End Binance.


(** ** DatabaseServerPublisherInfo *)

Module Database.

(** *** The ledger's database types (the variants and members used here) *)

Inductive DBCommandType := INITIALIZE | READ | RUN | EXECUTE | MIGRATE.

Inductive RecordBindingType :=
| STRING_TYPE | INT_TYPE | INT64_TYPE | DOUBLE_TYPE | BOOL_TYPE.

Inductive DBValue :=
| null_value
| bool_value (b : bool)
| int_value (i : Z)
| int64_value (i : Z)
| string_value (s : string).

Record DBCommandBinding := mkBinding {
  index : Z;
  value : DBValue;
}.

Record DBCommand := mkCommand {
  type : DBCommandType;
  command : string;
  bindings : list DBCommandBinding;
  record_bindings : list RecordBindingType;
}.

Record DBTransaction := mkTransaction {
  commands : list DBCommand;
}.

Record DBRecord := mkRecord {
  fields : list DBValue;
}.

(** The result of a command is a union: the rows read, or a single value. *)
Inductive DBCommandResult :=
| records (rows : list DBRecord)
| result_value (v : DBValue).

Inductive ResponseStatus :=
| RESPONSE_OK | INITIALIZATION_ERROR | TRANSACTION_ERROR | COMMAND_ERROR
| RESPONSE_ERROR.

Record DBCommandResponse := mkResponse {
  response_status : ResponseStatus;
  result : option DBCommandResult;
}.

Inductive Result := LEDGER_OK | LEDGER_ERROR.

(** [status] holds the integer value of the [PublisherStatus] enumerator;
    the banner type belongs to the sibling banner table. *)
Record ServerPublisherInfo (PublisherBanner : Type) := mkServerPublisherInfo {
  publisher_key : string;
  status : Z;
  excluded : bool;
  address : string;
  banner : option PublisherBanner;
}.
Arguments mkServerPublisherInfo {PublisherBanner}.
Arguments publisher_key {PublisherBanner}.
Arguments status {PublisherBanner}.
Arguments excluded {PublisherBanner}.
Arguments address {PublisherBanner}.
Arguments banner {PublisherBanner}.

(** What can be observed of a call: the transactions handed to the ledger,
    the requests to the banner table, the callbacks run (for the recording
    callbacks below), and a read through a null or wrong-variant result. *)
Inductive Event (PublisherBanner : Type) :=
| TransactionRun (transaction : DBTransaction)
| BannerRequested (key : string)
| ResultDelivered (r : Result)
| InfoDelivered (info : option (ServerPublisherInfo PublisherBanner))
| InvalidAccess.
Arguments TransactionRun {PublisherBanner}.
Arguments BannerRequested {PublisherBanner}.
Arguments ResultDelivered {PublisherBanner}.
Arguments InfoDelivered {PublisherBanner}.
Arguments InvalidAccess {PublisherBanner}.

Definition table_name_ : string := "server_publisher_info".

Definition DBTransaction_New : DBTransaction := mkTransaction [].
Definition DBCommand_New : DBCommand := mkCommand INITIALIZE "" [] [].

(** [transaction->commands.push_back(std::move(command))]. *)
Definition push_back (transaction : DBTransaction) (c : DBCommand)
  : DBTransaction :=
  mkTransaction (commands transaction ++ [c]).

Definition set_type (t : DBCommandType) (c : DBCommand) : DBCommand :=
  mkCommand t (command c) (bindings c) (record_bindings c).
Definition set_command (q : string) (c : DBCommand) : DBCommand :=
  mkCommand (type c) q (bindings c) (record_bindings c).
Definition set_record_bindings (r : list RecordBindingType) (c : DBCommand)
  : DBCommand :=
  mkCommand (type c) (command c) (bindings c) r.

(** Modelled from the spec: [BindString], [BindInt] and [BindBool] of
    [database_util.cc] are not part of the sources at hand; the spec's
    upsert binds all four columns, so each call adds one binding of the
    given index and value to the command. *)
Definition Bind (i : Z) (v : DBValue) (c : DBCommand) : DBCommand :=
  mkCommand (type c) (command c) (bindings c ++ [mkBinding i v])
            (record_bindings c).
Definition BindString (c : DBCommand) (i : Z) (v : string) : DBCommand :=
  Bind i (string_value v) c.
Definition BindInt (c : DBCommand) (i : Z) (v : Z) : DBCommand :=
  Bind i (int_value v) c.
Definition BindBool (c : DBCommand) (i : Z) (v : bool) : DBCommand :=
  Bind i (bool_value v) c.

(** What the table object takes from the rest of the ledger:
    - [PublisherBanner_New], the default-constructed banner;
    - [DropTable], [InsertIndex] and the column readers of the table base
      class and [database_util.h];
    - the sibling banner table [banner_]: its migration, the commands of its
      upsert, and the banner it finds for a key;
    - [respond], the response of the database to a transaction (absent for
      a null response pointer). *)
Class Ledger (PublisherBanner : Type) := {
  PublisherBanner_New : PublisherBanner;
  DropTable : string -> State DBTransaction bool;
  InsertIndex : string -> string -> State DBTransaction bool;
  GetIntColumn : DBRecord -> Z -> Z;
  GetBoolColumn : DBRecord -> Z -> bool;
  GetStringColumn : DBRecord -> Z -> string;
  banner_Migrate : Z -> State DBTransaction bool;
  banner_upsert : ServerPublisherInfo PublisherBanner -> list DBCommand;
  banner_lookup : string -> option PublisherBanner;
  respond : DBTransaction -> option DBCommandResponse;
}.

Section Table.
Context {PublisherBanner : Type} `{Ledger PublisherBanner}.

Abbreviation Info := (ServerPublisherInfo PublisherBanner).
Abbreviation Trace := (list (Event PublisherBanner)).

(** Modelled from the spec: [LedgerImpl::RunDBTransaction] is not part of the
    sources at hand; a transaction is submitted as one unit and its
    completion callback fires exactly once with the response. *)
Definition RunDBTransaction (transaction : DBTransaction)
    (callback : option DBCommandResponse -> Trace) : Trace :=
  TransactionRun transaction :: callback (respond transaction).

(** Modelled from the spec: [OnResultCallback] of [database_util.cc] is not
    part of the sources at hand; it invokes the callback once with success or
    failure of the transaction. *)
Definition OnResultCallback (response : option DBCommandResponse)
    (callback : Result -> Trace) : Trace :=
  match response with
  | Some (mkResponse RESPONSE_OK _) => callback LEDGER_OK
  | _ => callback LEDGER_ERROR
  end.

(** Modelled from the spec: [DatabaseServerPublisherBanner::GetRecord] is not
    part of the sources at hand; the nested banner is fetched first and
    handed to the callback, absent when there is none. *)
Definition banner_GetRecord (key : string)
    (callback : option PublisherBanner -> Trace) : Trace :=
  BannerRequested key :: callback (banner_lookup key).

(** Modelled from the spec: [DatabaseServerPublisherBanner::InsertOrUpdate]
    is not part of the sources at hand; the banner's upsert is appended to the
    caller's transaction. *)
Definition banner_InsertOrUpdate (transaction : DBTransaction) (info : Info)
  : DBTransaction :=
  mkTransaction (commands transaction ++ banner_upsert info).

Definition CreateTableV7 : State DBTransaction bool :=
  fun transaction =>
    let query :=
      "CREATE TABLE " +:+ table_name_ +:+ " " +:+
      "(" +:+
      "publisher_key LONGVARCHAR PRIMARY KEY NOT NULL UNIQUE," +:+
      "status INTEGER DEFAULT 0 NOT NULL," +:+
      "excluded INTEGER DEFAULT 0 NOT NULL," +:+
      "address TEXT NOT NULL" +:+
      ")" in
    let command := DBCommand_New in
    let command := set_type EXECUTE command in
    let command := set_command query command in
    (true, push_back transaction command).

Definition CreateIndexV7 : State DBTransaction bool :=
  InsertIndex table_name_ "publisher_key".

Definition MigrateToV7 : State DBTransaction bool :=
  ok <- DropTable table_name_ ;;
  if negb ok then ret false else
  ok <- CreateTableV7 ;;
  if negb ok then ret false else
  ok <- CreateIndexV7 ;;
  if negb ok then ret false else
  ok <- banner_Migrate 7 ;;
  if negb ok then ret false else
  ret true.

Definition MigrateToV15 : State DBTransaction bool :=
  banner_Migrate 15.

(** [transaction] is a pointer: [None] is the null pointer, and the pointee
    after the call is returned with the result. *)
Definition Migrate (transaction : option DBTransaction) (target : Z)
  : bool * option DBTransaction :=
  match transaction with
  | None => (false, None)
  | Some t =>
      let (r, t') :=
        if target =? 7 then MigrateToV7 t
        else if target =? 15 then MigrateToV15 t
        else (true, t) in
      (r, Some t')
  end.

Definition InsertOrUpdate (transaction : DBTransaction) (info : option Info)
  : DBTransaction :=
  match info with
  | None => transaction
  | Some info =>
      let query :=
        "INSERT OR REPLACE INTO " +:+ table_name_ +:+ " " +:+
        "(publisher_key, status, excluded, address) " +:+
        "VALUES (?, ?, ?, ?)" in
      let command := DBCommand_New in
      let command := set_type RUN command in
      let command := set_command query command in
      let command := BindString command 0 (publisher_key info) in
      let command := BindInt command 1 (status info) in
      let command := BindBool command 2 (excluded info) in
      let command := BindString command 3 (address info) in
      push_back transaction command
  end.

Definition ClearAndInsertList (list : list (option Info))
    (callback : Result -> Trace) : Trace :=
  let transaction_callback :=
    fun response => OnResultCallback response callback in
  let transaction := DBTransaction_New in
  let query := "DELETE FROM " +:+ table_name_ in
  let command := DBCommand_New in
  let command := set_type EXECUTE command in
  let command := set_command query command in
  let transaction := push_back transaction command in
  if (length list =? 0)%nat then
    RunDBTransaction transaction transaction_callback
  else
    let transaction :=
      fold_left
        (fun transaction (info : option Info) =>
           match info with
           | None => transaction
           | Some i =>
               let transaction := InsertOrUpdate transaction (Some i) in
               match banner i with
               | Some _ => banner_InsertOrUpdate transaction i
               | None => transaction
               end
           end)
        list transaction in
    RunDBTransaction transaction transaction_callback.

Definition status_is_OK (s : ResponseStatus) : bool :=
  match s with RESPONSE_OK => true | _ => false end.

Definition OnGetRecord (response : option DBCommandResponse)
    (publisher_key : string) (banner : PublisherBanner)
    (callback : option Info -> Trace) : Trace :=
  match response with
  | None => callback None
  | Some response =>
      if negb (status_is_OK (response_status response)) then callback None
      else
        match result response with
        | Some (records rows) =>
            if negb (length rows =? 1)%nat then callback None
            else
              match rows with
              | record :: _ =>
                  let info :=
                    mkServerPublisherInfo
                      publisher_key
                      (GetIntColumn record 0)
                      (GetBoolColumn record 1)
                      (GetStringColumn record 2)
                      (Some banner) in
                  callback (Some info)
              | [] => [InvalidAccess]
              end
        | _ => [InvalidAccess]
        end
  end.

Definition OnGetRecordBanner (banner : option PublisherBanner)
    (publisher_key : string) (callback : option Info -> Trace) : Trace :=
  let transaction := DBTransaction_New in
  let query :=
    "SELECT status, excluded, address " +:+
    "FROM " +:+ table_name_ +:+ " WHERE publisher_key=?" in
  let command := DBCommand_New in
  let command := set_type READ command in
  let command := set_command query command in
  let command := BindString command 0 publisher_key in
  let command := set_record_bindings [INT_TYPE; BOOL_TYPE; STRING_TYPE] command in
  let transaction := push_back transaction command in
  let banner :=
    match banner with
    | None => PublisherBanner_New
    | Some b => b
    end in
  let transaction_callback :=
    fun response => OnGetRecord response publisher_key banner callback in
  RunDBTransaction transaction transaction_callback.

Definition GetRecord (publisher_key : string)
    (callback : option Info -> Trace) : Trace :=
  let banner_callback :=
    fun banner => OnGetRecordBanner banner publisher_key callback in
  banner_GetRecord publisher_key banner_callback.

(** *** The statements of the specification, for comparison *)

(** Steps run in order on one transaction, stopping with [false] at the
    first step that fails. *)
Fixpoint until_first_failure (steps : list (State DBTransaction bool))
  : State DBTransaction bool :=
  match steps with
  | [] => ret true
  | step :: rest =>
      fun transaction =>
        let (ok, transaction') := step transaction in
        if ok then until_first_failure rest transaction'
        else (false, transaction')
  end.

Definition create_table_command : DBCommand :=
  mkCommand EXECUTE
    "CREATE TABLE server_publisher_info (publisher_key LONGVARCHAR PRIMARY KEY NOT NULL UNIQUE,status INTEGER DEFAULT 0 NOT NULL,excluded INTEGER DEFAULT 0 NOT NULL,address TEXT NOT NULL)"
    [] [].

(** The step that adds one command at the end of the transaction's
    commands and cannot fail. *)
Definition appending (c : DBCommand) : State DBTransaction bool :=
  fun transaction => (true, mkTransaction (commands transaction ++ [c])).

Definition delete_all_command : DBCommand :=
  mkCommand EXECUTE "DELETE FROM server_publisher_info" [] [].

Definition upsert_command (info : Info) : DBCommand :=
  mkCommand RUN
    "INSERT OR REPLACE INTO server_publisher_info (publisher_key, status, excluded, address) VALUES (?, ?, ?, ?)"
    [mkBinding 0 (string_value (publisher_key info));
     mkBinding 1 (int_value (status info));
     mkBinding 2 (bool_value (excluded info));
     mkBinding 3 (string_value (address info))]
    [].

(** The commands one element of the list contributes: none for a null
    record, else its upsert followed, when it carries a banner, by the
    banner's upsert. *)
Definition commands_of (info : option Info) : list DBCommand :=
  match info with
  | None => []
  | Some i =>
      upsert_command i ::
      match banner i with
      | Some _ => banner_upsert i
      | None => []
      end
  end.

Definition replace_all_transaction (list : list (option Info)) : DBTransaction :=
  mkTransaction (delete_all_command :: flat_map commands_of list).

(** Success or failure of a transaction, as the result callback sees it. *)
Definition outcome_of (response : option DBCommandResponse) : Result :=
  match response with
  | Some r => if status_is_OK (response_status r) then LEDGER_OK else LEDGER_ERROR
  | None => LEDGER_ERROR
  end.

Definition select_transaction (key : string) : DBTransaction :=
  mkTransaction
    [mkCommand READ
       "SELECT status, excluded, address FROM server_publisher_info WHERE publisher_key=?"
       [mkBinding 0 (string_value key)]
       [INT_TYPE; BOOL_TYPE; STRING_TYPE]].

(** The banner attached to a record: the stored one, else a fresh one. *)
Definition banner_or_new (key : string) : PublisherBanner :=
  match banner_lookup key with
  | Some b => b
  | None => PublisherBanner_New
  end.

(** The record composed from the single row of a lookup. *)
Definition composed (key : string) (row : DBRecord) : Info :=
  mkServerPublisherInfo key (GetIntColumn row 0) (GetBoolColumn row 1)
                        (GetStringColumn row 2) (Some (banner_or_new key)).

(** The callbacks that only record what they were run with. *)
Definition record_result (r : Result) : Trace := [ResultDelivered r].
Definition record_info (info : option Info) : Trace := [InfoDelivered info].

End Table.

End Database.


(** ** Test doubles

    Small instances of the host interfaces, for the examples that evaluate the
    model at concrete inputs. *)

Module Fixtures.
Import Binance Database.

(** An [OSCrypt] in the manner of the desktop ones: the empty string is its
    own ciphertext, a ciphertext carries the version prefix [v10], and
    anything else fails to decrypt and leaves the output alone. *)
Definition toy_encrypt (plaintext : string) : option string :=
  if String.eqb plaintext "" then Some "" else Some ("v10" +:+ plaintext).

Definition toy_decrypt (ciphertext out : string) : bool * string :=
  if String.eqb ciphertext "" then (true, "")
  else if String.prefix "v10" ciphertext
       then (true, String.substring 3 (String.length ciphertext - 3) ciphertext)
       else (false, out).

Definition host_with (encrypt : string -> option string) : Host :=
  {| kBinanceAccessToken := "brave.binance.access_token";
     kBinanceRefreshToken := "brave.binance.refresh_token";
     EncryptString := encrypt;
     DecryptString := toy_decrypt;
     Base64Decode := Base64.Base64Decode |}.

Definition host : Host := host_with toy_encrypt.

(** The key store is unavailable: nothing can be encrypted. *)
Definition locked_host : Host := host_with (fun _ => None).

(** Encryption fails for one plaintext only. *)
Definition host_rejecting (bad : string) : Host :=
  host_with (fun p => if String.eqb p bad then None else toy_encrypt p).

(** A parser that takes the body itself for every string it is asked for
    and succeeds on the body [ok]. *)
Definition parser : BinanceJSONParser :=
  {| GetAccountBalancesFromJSON json balances := (true, <["BTC" := json]> balances);
     GetTokensFromJSON json value type := (true, json +:+ "." +:+ type);
     GetTickerPriceFromJSON json price := (true, json);
     GetTickerVolumeFromJSON json volume := (true, json);
     GetDepositInfoFromJSON json out := (true, (json, json));
     GetQuoteInfoFromJSON json out := (true, (json, json, json, json));
     GetConfirmStatusFromJSON json out := (true, ("", String.eqb json "ok"));
     GetConvertAssetsFromJSON json assets := (true, <["BTC" := [json]]> assets);
     RevokeTokenFromJSON json success := (true, String.eqb json "ok") |}.

Definition fresh_service : BinanceService := mkBinanceService "" "" "" "" "".

(** A profile holding the stored form of the tokens [tok] and [ref]. *)
Definition stored_prefs : gmap string string :=
  <["brave.binance.refresh_token" := "djEwcmVm"]>
    (<["brave.binance.access_token" := "djEwdG9r"]> ∅).

(** The same profile after the stored refresh token was damaged: it still
    is base64, of a string that does not decrypt. *)
Definition damaged_prefs : gmap string string :=
  <["brave.binance.refresh_token" := "Z2FyYmFnZQ=="]>
    (<["brave.binance.access_token" := "djEwdG9r"]> ∅).

(** A fresh service over the damaged profile, as the constructor finds it. *)
Definition damaged_world : World := mkWorld fresh_service damaged_prefs [].

(** A connected service: the tokens are in memory and in the profile. *)
Definition connected_service : BinanceService :=
  mkBinanceService "" "tok" "ref" "challenge" "verifier".
Definition connected_world : World := mkWorld connected_service stored_prefs [].

(** A ledger whose banners are their titles, and whose database answers
    every transaction with one row. *)
Definition column (row : DBRecord) (i : Z) : DBValue :=
  nth (Z.to_nat i) (fields row) null_value.

Definition one_row : DBRecord :=
  mkRecord [int_value 2; bool_value false; string_value "wallet"].

Definition ledger_answering (response : option DBCommandResponse)
  : Ledger string :=
  {| PublisherBanner_New := "";
     DropTable name := fun t =>
       (true, push_back t (mkCommand EXECUTE ("DROP TABLE IF EXISTS " +:+ name) [] []));
     InsertIndex name key := fun t =>
       (true, push_back t (mkCommand EXECUTE
                             ("CREATE INDEX ON " +:+ name +:+ " (" +:+ key +:+ ")")
                             [] []));
     GetIntColumn row i := match column row i with int_value v => v | _ => 0 end;
     GetBoolColumn row i := match column row i with bool_value v => v | _ => false end;
     GetStringColumn row i := match column row i with string_value v => v | _ => "" end;
     banner_Migrate target := fun t =>
       (true, push_back t (mkCommand MIGRATE "server_publisher_banner" [] []));
     banner_upsert info :=
       [mkCommand RUN "INSERT OR REPLACE INTO server_publisher_banner"
                  [mkBinding 0 (string_value (publisher_key info))] []];
     banner_lookup key := if String.eqb key "brave.com" then Some "Brave" else None;
     respond t := response |}.

Definition ledger : Ledger string :=
  ledger_answering (Some (mkResponse RESPONSE_OK (Some (records [one_row])))).

End Fixtures.

(** ** BinanceService: construction, and counting what a trace shows *)

Module BinanceSession.
Import Binance.

(** The constructor: the token members start empty and
    [LoadTokensFromPrefs()] is called, its result dropped. *)
Definition BinanceService_new `{Host} (profile : gmap string string) : World :=
  snd (LoadTokensFromPrefs
         (mkWorld (mkBinanceService "" "" "" "" "") profile [])).

Definition is_callback_run (e : Event) : bool :=
  match e with CallbackRun _ => true | _ => false end.

Definition is_parsed (e : Event) : bool :=
  match e with Parsed _ _ => true | _ => false end.

Definition is_log (e : Event) : bool :=
  match e with LogError _ => true | _ => false end.

(** How often a callback was run, and which parser calls were made. *)
Definition callback_runs (t : list Event) : nat :=
  length (List.filter is_callback_run t).
Definition parser_calls (t : list Event) : list Event := List.filter is_parsed t.
Definition error_logs (t : list Event) : list Event := List.filter is_log t.

(** The success flag a completion carries, when its callback has one
    that is computed from the status. *)
Definition status_flag (c : Completion) : option bool :=
  match c with
  | AccountBalances _ success => Some success
  | DepositInfo _ _ success => Some success
  | _ => None
  end.

(** What a handler's callback receives within the 2xx range: what the
    parser left in the output parameters, which start at the defaults; the
    flag of the balances and deposit callbacks is the status check alone. *)
Definition parsed_completion `{BinanceJSONParser} (h : RestHandler)
    (body : string) : Completion :=
  match h with
  | AccountBalancesHandler =>
      AccountBalances (snd (GetAccountBalancesFromJSON body ∅)) true
  | TickerPriceHandler => TickerPrice (snd (GetTickerPriceFromJSON body "0.00"))
  | TickerVolumeHandler => TickerVolume (snd (GetTickerVolumeFromJSON body "0"))
  | ConvertQuoteHandler =>
      let '(i, p, f, a) := snd (GetQuoteInfoFromJSON body ("", "", "", "")) in
      ConvertQuote i p f a
  | DepositInfoHandler =>
      let '(a, u) := snd (GetDepositInfoFromJSON body ("", "")) in
      DepositInfo a u true
  | ConfirmConvertHandler =>
      let '(e, s) := snd (GetConfirmStatusFromJSON body ("", false)) in
      ConvertConfirmed s e
  | ConvertAssetsHandler =>
      ConvertAssets (snd (GetConvertAssetsFromJSON body ∅))
  | RevokeTokenHandler => TokenRevoked (snd (RevokeTokenFromJSON body false))
  end.

End BinanceSession.


(** ** The alphabet of a code challenge *)

Module Alphabet.

Definition between (lo hi c : ascii) : bool :=
  ((N_of_ascii lo <=? N_of_ascii c) && (N_of_ascii c <=? N_of_ascii hi))%N.

Definition is_alphanumeric (c : ascii) : bool :=
  between "A"%char "Z"%char c || between "a"%char "z"%char c
  || between "0"%char "9"%char c.

(** The characters of base64url: letters, digits, [-] and [_]. *)
Definition is_base64url_char (c : ascii) : bool :=
  is_alphanumeric c || Ascii.eqb c "-"%char || Ascii.eqb c "_"%char.

(** The characters of base64 that are not padding. *)
Definition is_base64_char (c : ascii) : bool :=
  is_alphanumeric c || Ascii.eqb c "+"%char || Ascii.eqb c "/"%char.

(** The byte values. *)
Definition all_bytes : list Z := map Z.of_nat (seq 0 256).

(** Every character [Base64.encode] computes from one or two bytes is a
    base64 character that [url_safe] maps into base64url. *)
Definition sextets_ok (a b : Z) : bool :=
  forallb
    (fun i => is_base64_char (Base64.sextet i)
              && is_base64url_char (CodeChallenge.url_safe (Base64.sextet i)))
    [Z.shiftr a 2;
     Z.shiftl (Z.land a 3) 4;
     Z.lor (Z.shiftl (Z.land a 3) 4) (Z.shiftr b 4);
     Z.shiftl (Z.land b 15) 2;
     Z.lor (Z.shiftl (Z.land a 15) 2) (Z.shiftr b 6);
     Z.land b 63].

End Alphabet.


(** ** DatabaseServerPublisherInfo: helpers for statements *)

Module DatabaseViews.
Import Database.

(** The non-null entries of a list of records. *)
Definition present {A} (l : list (option A)) : list (option A) :=
  List.filter (fun o => match o with Some _ => true | None => false end) l.

Definition is_info_delivered {B} (e : Event B) : bool :=
  match e with InfoDelivered _ => true | _ => false end.

Definition is_invalid_access {B} (e : Event B) : bool :=
  match e with InvalidAccess => true | _ => false end.

(** The result of a response is a set of rows. *)
Definition has_rows (r : DBCommandResponse) : bool :=
  match result r with
  | Some (records _) => true
  | _ => false
  end.

End DatabaseViews.


(** ** BinanceService: requests, pending loaders and their completion *)

Module BinanceRequests.
Import Binance.

(** *** URLs

    Modelled from the spec: [GURL] and [net::AppendQueryParameter] belong to
    the browser and are not part of the sources at hand; the spec has URLs
    built from a host and a path with query parameters appended.  A URL is
    kept in parts: the origin, the path, and the query parameters in the
    order they were appended; escaping belongs to the rendering. *)
Record GURL := mkGURL {
  origin : string;
  path : string;
  query_parameters : list (string * string);
}.

Definition AppendQueryParameter (url : GURL) (name value : string) : GURL :=
  mkGURL (origin url) (path url) (query_parameters url ++ [(name, value)]).

(** The first value appended under [name], if any. *)
Definition query_parameter (name : string) (url : GURL) : option string :=
  option_map snd
    (List.find (fun p => String.eqb (fst p) name) (query_parameters url)).

Definition oauth_callback : string := "com.brave.binance://authorization".
Definition oauth_scope : string :=
  "user:email,user:address,asset:balance,asset:ocbs".
Definition oauth_url : GURL :=
  mkGURL "https://accounts.binance.com" "/en/oauth/authorize" [].
Definition kRetriesCountOnNetworkChange : Z := 1.

(** [GURL(std::string(url::kHttpsScheme) + "://" + host).Resolve(path)],
    for the absolute paths of the service. *)
Definition GetURLWithPath (host path : string) : GURL :=
  mkGURL ("https" +:+ "://" +:+ host) path [].

(** What the requests take from the browser and from
    [binance_service.h]: the rendering of a URL and of its query, the
    lower-casing of a header name, the encoding of the random seed, the four
    load flags, and the paths of the endpoints. *)
Class Network := {
  GURL_spec : GURL -> string;
  GURL_query : GURL -> string;
  ToLowerASCII : string -> string;
  HexEncode : string -> string;
  LOAD_DO_NOT_SEND_COOKIES : Z;
  LOAD_DO_NOT_SAVE_COOKIES : Z;
  LOAD_BYPASS_CACHE : Z;
  LOAD_DISABLE_CACHE : Z;
  oauth_path_access_token : string;
  oauth_path_account_balances : string;
  oauth_path_convert_quote : string;
  oauth_path_deposit_info : string;
  oauth_path_convert_confirm : string;
  oauth_path_convert_assets : string;
  oauth_path_revoke_token : string;
  api_path_ticker_price : string;
  api_path_ticker_volume : string;
}.

(** *** Requests and loaders *)

Record ResourceRequest := mkResourceRequest {
  request_url : GURL;
  load_flags : Z;
  method : string;
}.

Inductive RetryMode := RETRY_NEVER | RETRY_ON_NETWORK_CHANGE.

Record HttpResponseHeaders := mkHttpResponseHeaders {
  response_code : Z;
  header_lines : list (string * string);
}.

Record URLResponseHead := mkURLResponseHead {
  response_headers : option HttpResponseHeaders;
}.

(** [URLRequestCallback]: status, body, headers. *)
Definition URLRequestCallback : Type :=
  Z -> string -> gmap string string -> M unit.

(** A [SimpleURLLoader] as the service sets it up and reads it: the
    request, the attached upload with its content type, the retry options,
    the response information the network fills in, and the callback bound
    into its completion. *)
Record SimpleURLLoader := mkSimpleURLLoader {
  request : ResourceRequest;
  upload : option (string * string);
  retry_options : option (Z * RetryMode);
  ResponseInfo : option URLResponseHead;
  bound_callback : URLRequestCallback;
}.

(** The service with what the requests read and write: the world of the
    token store, the members set at construction, and the list of pending
    loaders.  An element of [url_loaders_] is kept with the handle that
    stands for its list iterator; [allocated] counts the elements inserted
    so far, so that a new element gets a handle no other element has. *)
Record Session := mkSession {
  world : World;
  client_id_ : string;
  oauth_host_ : string;
  api_host_ : string;
  url_loaders_ : list (nat * SimpleURLLoader);
  allocated : nat;
}.

Definition with_world (w : World) (s : Session) : Session :=
  mkSession w (client_id_ s) (oauth_host_ s) (api_host_ s)
            (url_loaders_ s) (allocated s).

Definition with_loaders (l : list (nat * SimpleURLLoader)) (n : nat)
    (s : Session) : Session :=
  mkSession (world s) (client_id_ s) (oauth_host_ s) (api_host_ s) l n.

(** A function of the token store or a handler, run on the session. *)
Definition on_world {A} (m : M A) : State Session A :=
  fun s => let (a, w) := m (world s) in (a, with_world w s).

Definition handles (s : Session) : list nat := map fst (url_loaders_ s).

(** [iter->get()]. *)
Fixpoint loader_at (iter : nat) (l : list (nat * SimpleURLLoader))
  : option SimpleURLLoader :=
  match l with
  | [] => None
  | (h, loader) :: rest =>
      if Nat.eqb h iter then Some loader else loader_at iter rest
  end.

(** [url_loaders_.erase(iter)]. *)
Fixpoint erase (iter : nat) (l : list (nat * SimpleURLLoader))
  : list (nat * SimpleURLLoader) :=
  match l with
  | [] => []
  | (h, loader) :: rest =>
      if Nat.eqb h iter then rest else (h, loader) :: erase iter rest
  end.

(** The network fills in the response information of a loader. *)
Fixpoint respond_to (iter : nat) (info : option URLResponseHead)
    (l : list (nat * SimpleURLLoader)) : list (nat * SimpleURLLoader) :=
  match l with
  | [] => []
  | (h, loader) :: rest =>
      if Nat.eqb h iter
      then (h, mkSimpleURLLoader (request loader) (upload loader)
                                 (retry_options loader) info
                                 (bound_callback loader)) :: rest
      else (h, loader) :: respond_to iter info rest
  end.

(** Every handle is in use once, and was handed out by [allocated]. *)
Definition well_tracked (s : Session) : Prop :=
  NoDup (handles s) /\ Forall (fun h => (h < allocated s)%nat) (handles s).

Section Requests.
Context `{Host} `{BinanceJSONParser} `{Network}.

(** The constructor: the client id of the build, the two production hosts,
    no pending loader, and the tokens loaded from the profile. *)
Definition BinanceService_create (BINANCE_CLIENT_ID : string)
    (profile : gmap string string) : Session :=
  mkSession (BinanceSession.BinanceService_new profile)
            BINANCE_CLIENT_ID "accounts.binance.com" "api.binance.com" [] O.

Definition OAuthRequest (url : GURL) (method post_data : string)
    (callback : URLRequestCallback) : State Session bool :=
  fun s =>
    let request :=
      mkResourceRequest
        url
        (Z.lor (Z.lor (Z.lor LOAD_DO_NOT_SEND_COOKIES LOAD_DO_NOT_SAVE_COOKIES)
                      LOAD_BYPASS_CACHE)
               LOAD_DISABLE_CACHE)
        method in
    let attached :=
      if String.eqb post_data "" then None
      else Some (post_data, "application/x-www-form-urlencoded") in
    let url_loader :=
      mkSimpleURLLoader
        request attached
        (Some (kRetriesCountOnNetworkChange, RETRY_ON_NETWORK_CHANGE))
        None callback in
    let iter := allocated s in
    (true,
     with_loaders ((iter, url_loader) :: url_loaders_ s) (S (allocated s)) s).

(** The loop over [EnumerateHeaderLines]: [headers[key] = value] with the
    key in lower case. *)
Definition collect_headers (lines : list (string * string))
  : gmap string string :=
  fold_left (fun headers (line : string * string) =>
               <[ToLowerASCII (fst line) := snd line]> headers)
            lines ∅.

(** [None] stands for the use of an iterator that is not in the list. *)
Definition OnURLLoaderComplete (iter : nat) (callback : URLRequestCallback)
    (response_body : option string) : Session -> option (unit * Session) :=
  fun s =>
    match loader_at iter (url_loaders_ s) with
    | None => None
    | Some loader =>
        let response_code := -1 in
        let headers : gmap string string := ∅ in
        let '(response_code, headers) :=
          match ResponseInfo loader with
          | Some info =>
              match response_headers info with
              | Some headers_list =>
                  (BinanceRequests.response_code headers_list,
                   collect_headers (header_lines headers_list))
              | None => (response_code, headers)
              end
          | None => (response_code, headers)
          end in
        let s := with_loaders (erase iter (url_loaders_ s)) (allocated s) s in
        Some (on_world
                (callback response_code (default "" response_body) headers) s)
    end.

(** The network completes the loader at [iter]: the response information is
    filled in and the completion bound at the start of the download runs. *)
Definition network_completes (iter : nat) (info : option URLResponseHead)
    (response_body : option string) : Session -> option (unit * Session) :=
  fun s =>
    match loader_at iter (url_loaders_ s) with
    | None => None
    | Some loader =>
        OnURLLoaderComplete
          iter (bound_callback loader) response_body
          (with_loaders (respond_to iter info (url_loaders_ s)) (allocated s) s)
    end.

Definition set_auth_token_ (v : string) : M unit :=
  update_self (fun s => mkBinanceService v (access_token_ s) (refresh_token_ s)
                                         (code_challenge_ s) (code_verifier_ s)).

Definition SetAuthToken (auth_token : string) : State Session unit :=
  on_world (set_auth_token_ auth_token).

Definition SetClientIdForTest (client_id : string) : State Session unit :=
  fun s => (tt, mkSession (world s) client_id (oauth_host_ s) (api_host_ s)
                          (url_loaders_ s) (allocated s)).

Definition SetOAuthHostForTest (oauth_host : string) : State Session unit :=
  fun s => (tt, mkSession (world s) (client_id_ s) oauth_host (api_host_ s)
                          (url_loaders_ s) (allocated s)).

Definition SetAPIHostForTest (api_host : string) : State Session unit :=
  fun s => (tt, mkSession (world s) (client_id_ s) (oauth_host_ s) api_host
                          (url_loaders_ s) (allocated s)).

(** [random_seed] stands for the 32 bytes [crypto::RandBytes] delivers. *)
Definition GetHexEncodedCryptoRandomSeed (random_seed : string) : string :=
  HexEncode random_seed.

Definition GetOAuthClientUrl (random_seed : string) : State Session string :=
  fun s =>
    let (_, s) :=
      on_world (set_code_verifier_ (GetHexEncodedCryptoRandomSeed random_seed)) s in
    let (_, s) :=
      on_world (set_code_challenge_
                  (CodeChallenge.GetCodeChallenge (code_verifier_ (self (world s)))))
               s in
    let url := oauth_url in
    let url := AppendQueryParameter url "response_type" "code" in
    let url := AppendQueryParameter url "client_id" (client_id_ s) in
    let url := AppendQueryParameter url "redirect_uri" oauth_callback in
    let url := AppendQueryParameter url "scope" oauth_scope in
    let url :=
      AppendQueryParameter url "code_challenge" (code_challenge_ (self (world s))) in
    let url := AppendQueryParameter url "code_challenge_method" "S256" in
    (GURL_spec url, s).

Definition GetAccessToken (callback : bool -> M unit) : State Session bool :=
  fun s =>
    let internal_callback := OnGetAccessToken callback in
    let base_url := GetURLWithPath (oauth_host_ s) oauth_path_access_token in
    let url := base_url in
    let url := AppendQueryParameter url "grant_type" "authorization_code" in
    let url := AppendQueryParameter url "code" (auth_token_ (self (world s))) in
    let url := AppendQueryParameter url "client_id" (client_id_ s) in
    let url :=
      AppendQueryParameter url "code_verifier" (code_verifier_ (self (world s))) in
    let url := AppendQueryParameter url "redirect_uri" oauth_callback in
    let (_, s) := on_world (set_auth_token_ "") s in
    OAuthRequest base_url "POST" (GURL_query url) internal_callback s.

Definition GetAccountBalances (callback : gmap string string -> bool -> M unit)
  : State Session bool :=
  fun s =>
    let internal_callback := OnGetAccountBalances callback in
    let url := GetURLWithPath (oauth_host_ s) oauth_path_account_balances in
    let url :=
      AppendQueryParameter url "access_token" (access_token_ (self (world s))) in
    OAuthRequest url "GET" "" internal_callback s.

Definition GetConvertQuote (from to amount : string)
    (callback : string -> string -> string -> string -> M unit)
  : State Session bool :=
  fun s =>
    let internal_callback := OnGetConvertQuote callback in
    let url := GetURLWithPath (oauth_host_ s) oauth_path_convert_quote in
    let url := AppendQueryParameter url "fromAsset" from in
    let url := AppendQueryParameter url "toAsset" to in
    let url := AppendQueryParameter url "baseAsset" from in
    let url := AppendQueryParameter url "amount" amount in
    let url :=
      AppendQueryParameter url "access_token" (access_token_ (self (world s))) in
    OAuthRequest url "POST" "" internal_callback s.

Definition GetTickerPrice (symbol_pair : string) (callback : string -> M unit)
  : State Session bool :=
  fun s =>
    let internal_callback := OnGetTickerPrice callback in
    let url := GetURLWithPath (api_host_ s) api_path_ticker_price in
    let url := AppendQueryParameter url "symbol" symbol_pair in
    OAuthRequest url "GET" "" internal_callback s.

Definition GetTickerVolume (symbol_pair : string) (callback : string -> M unit)
  : State Session bool :=
  fun s =>
    let internal_callback := OnGetTickerVolume callback in
    let url := GetURLWithPath (api_host_ s) api_path_ticker_volume in
    let url := AppendQueryParameter url "symbol" symbol_pair in
    OAuthRequest url "GET" "" internal_callback s.

Definition GetDepositInfo (symbol : string)
    (callback : string -> string -> bool -> M unit) : State Session bool :=
  fun s =>
    let internal_callback := OnGetDepositInfo callback in
    let url := GetURLWithPath (oauth_host_ s) oauth_path_deposit_info in
    let url := AppendQueryParameter url "coin" symbol in
    let url :=
      AppendQueryParameter url "access_token" (access_token_ (self (world s))) in
    OAuthRequest url "GET" "" internal_callback s.

Definition ConfirmConvert (quote_id : string)
    (callback : bool -> string -> M unit) : State Session bool :=
  fun s =>
    let internal_callback := OnConfirmConvert callback in
    let url := GetURLWithPath (oauth_host_ s) oauth_path_convert_confirm in
    let url := AppendQueryParameter url "quoteId" quote_id in
    let url :=
      AppendQueryParameter url "access_token" (access_token_ (self (world s))) in
    OAuthRequest url "POST" "" internal_callback s.

Definition GetConvertAssets (callback : gmap string (list string) -> M unit)
  : State Session bool :=
  fun s =>
    let internal_callback := OnGetConvertAssets callback in
    let url := GetURLWithPath (oauth_host_ s) oauth_path_convert_assets in
    let url :=
      AppendQueryParameter url "access_token" (access_token_ (self (world s))) in
    OAuthRequest url "GET" "" internal_callback s.

Definition RevokeToken (callback : bool -> M unit) : State Session bool :=
  fun s =>
    let internal_callback := OnRevokeToken callback in
    let url := GetURLWithPath (oauth_host_ s) oauth_path_revoke_token in
    let url :=
      AppendQueryParameter url "access_token" (access_token_ (self (world s))) in
    OAuthRequest url "POST" "" internal_callback s.

(** *** The REST requests under one name *)

Inductive RestRequest :=
| AccountBalancesRequest
| ConvertQuoteRequest (from to amount : string)
| TickerPriceRequest (symbol_pair : string)
| TickerVolumeRequest (symbol_pair : string)
| DepositInfoRequest (symbol : string)
| ConfirmConvertRequest (quote_id : string)
| ConvertAssetsRequest
| RevokeTokenRequest.

Definition handler_of (r : RestRequest) : RestHandler :=
  match r with
  | AccountBalancesRequest => AccountBalancesHandler
  | ConvertQuoteRequest _ _ _ => ConvertQuoteHandler
  | TickerPriceRequest _ => TickerPriceHandler
  | TickerVolumeRequest _ => TickerVolumeHandler
  | DepositInfoRequest _ => DepositInfoHandler
  | ConfirmConvertRequest _ => ConfirmConvertHandler
  | ConvertAssetsRequest => ConvertAssetsHandler
  | RevokeTokenRequest => RevokeTokenHandler
  end.

(** Request [r] issued with a recording callback. *)
Definition issue (r : RestRequest) : State Session bool :=
  match r with
  | AccountBalancesRequest =>
      GetAccountBalances (fun b s => recording (AccountBalances b s))
  | ConvertQuoteRequest from to amount =>
      GetConvertQuote from to amount
                      (fun i p f a => recording (ConvertQuote i p f a))
  | TickerPriceRequest symbol_pair =>
      GetTickerPrice symbol_pair (fun p => recording (TickerPrice p))
  | TickerVolumeRequest symbol_pair =>
      GetTickerVolume symbol_pair (fun v => recording (TickerVolume v))
  | DepositInfoRequest symbol =>
      GetDepositInfo symbol (fun a u s => recording (DepositInfo a u s))
  | ConfirmConvertRequest quote_id =>
      ConfirmConvert quote_id (fun s e => recording (ConvertConfirmed s e))
  | ConvertAssetsRequest =>
      GetConvertAssets (fun a => recording (ConvertAssets a))
  | RevokeTokenRequest => RevokeToken (fun s => recording (TokenRevoked s))
  end.

(** Is the request one of the ticker requests, which go to the public API
    host? *)
Definition is_ticker (r : RestRequest) : bool :=
  match r with
  | TickerPriceRequest _ | TickerVolumeRequest _ => true
  | _ => false
  end.

End Requests.

End BinanceRequests.


(** ** A network double *)

Module NetFixtures.
Import Binance BinanceRequests.

Definition lower (c : ascii) : ascii :=
  if Alphabet.between "A"%char "Z"%char c
  then ascii_of_N (N_of_ascii c + 32)
  else c.

Definition lower_string (s : string) : string :=
  string_of_list_ascii (map lower (list_ascii_of_string s)).

Definition render_query (url : GURL) : string :=
  String.concat "&"
    (map (fun p => fst p +:+ "=" +:+ snd p) (query_parameters url)).

Definition network : Network :=
  {| GURL_spec url := origin url +:+ path url +:+ "?" +:+ render_query url;
     GURL_query := render_query;
     ToLowerASCII := lower_string;
     HexEncode seed := "5EED" +:+ seed;
     LOAD_DO_NOT_SEND_COOKIES := 2;
     LOAD_DO_NOT_SAVE_COOKIES := 4;
     LOAD_BYPASS_CACHE := 8;
     LOAD_DISABLE_CACHE := 16;
     oauth_path_access_token := "/oauth/token";
     oauth_path_account_balances := "/oauth-api/v1/balance";
     oauth_path_convert_quote := "/oauth-api/v1/ocbs/quote";
     oauth_path_deposit_info := "/oauth-api/v1/get-charge-address";
     oauth_path_convert_confirm := "/oauth-api/v1/ocbs/confirm";
     oauth_path_convert_assets := "/oauth-api/v1/ocbs/support-coins";
     oauth_path_revoke_token := "/oauth-api/v1/revoke-token";
     api_path_ticker_price := "/api/v3/ticker/price";
     api_path_ticker_volume := "/api/v3/ticker/24hr" |}.

(** A service constructed over the stored profile. *)
Definition session : Session :=
  BinanceService_create (H := Fixtures.host) "client" Fixtures.stored_prefs.

End NetFixtures.


(** * Properties *)

(** ** The hash and the encoding on their published vectors *)

Module Vectors.
Import Bytes.

(** FIPS 180-4, one-block message [abc]: ba7816bf 8f01cfea 414140de 5dae2223
    b00361a3 96177a9c b410ff61 f20015ad. *)
Example SHA256_abc :
  be_words (SHA256.digest (of_string "abc"))
  = [3128432319; 2399260650; 1094795486; 1571693091;
     2953011619; 2518121116; 3021012833; 4060091821].
Proof. vm_compute. reflexivity. Qed.

(** FIPS 180-4, two-block message: 248d6a61 d20638b8 e5c02693 0c3e6039
    a33ce459 64ff2167 f6ecedd4 19db06c1. *)
Example SHA256_two_blocks :
  be_words
    (SHA256.digest
       (of_string "abcdbcdecdefdefgefghfghighijhijkijkljklmklmnlmnomnopnopq"))
  = [613247585; 3523623096; 3854575251; 205414457;
     2738676825; 1694441831; 4142722516; 433784513].
Proof. vm_compute. reflexivity. Qed.

(** RFC 4648, section 10. *)
Example Base64Encode_rfc4648 :
  map Base64.Base64Encode [""; "f"; "fo"; "foo"; "foob"; "fooba"; "foobar"]
  = [""; "Zg=="; "Zm8="; "Zm9v"; "Zm9vYg=="; "Zm9vYmE="; "Zm9vYmFy"].
Proof. vm_compute. reflexivity. Qed.

Example Base64Decode_rfc4648 :
  map Base64.Base64Decode
      [""; "Zg=="; "Zm8="; "Zm9v"; "Zm9vYg=="; "Zm9vYmE="; "Zm9vYmFy"; "Zm9"; "Z=9v"]
  = [Some ""; Some "f"; Some "fo"; Some "foo"; Some "foob"; Some "fooba";
     Some "foobar"; None; None].
Proof. vm_compute. reflexivity. Qed.

End Vectors.

(** ** The code challenge *)

Module CodeChallengeFacts.
Import Bytes CodeChallenge.

Lemma not_equals_sign_char (c : ascii) :
  not_equals_sign (char_to_int c) = negb (Ascii.eqb c "="%char).
Proof.
  destruct c as [[] [] [] [] [] [] [] []]; reflexivity.
Qed.

(** The two passes of [std::replace] are one pass of [url_safe]. *)
Lemma replace_twice_url_safe (s : list ascii) :
  std_replace "/"%char "_"%char (std_replace "+"%char "-"%char s)
  = map url_safe s.
Proof.
  unfold std_replace. rewrite map_map. apply map_ext. intros c.
  unfold url_safe. destruct (Ascii.eqb c "+"%char) eqn:E; [reflexivity|].
  reflexivity.
Qed.

Lemma strip_trailing_padding_snoc (l : list ascii) (c : ascii) :
  strip_trailing_padding (l ++ [c])
  = if Ascii.eqb c "="%char then strip_trailing_padding l else l ++ [c].
Proof.
  induction l as [|a l IH]; simpl.
  - destruct (Ascii.eqb c "="%char); reflexivity.
  - rewrite IH. destruct (Ascii.eqb c "="%char); [reflexivity|].
    destruct l; reflexivity.
Qed.

(** Erasing from the base of the reverse search keeps what remains of the
    reversed string after its leading run of [=]. *)
Lemma strip_trailing_padding_rev (r : list ascii) :
  strip_trailing_padding (rev r)
  = rev (skipn (std_find_if (fun c => negb (Ascii.eqb c "="%char)) r) r).
Proof.
  induction r as [|c r IH]; [reflexivity|].
  cbn [rev std_find_if]. rewrite strip_trailing_padding_snoc.
  destruct (Ascii.eqb c "="%char); cbn [negb skipn rev]; [exact IH|reflexivity].
Qed.

Lemma std_find_if_le {A} (p : A -> bool) (l : list A) :
  (std_find_if p l <= length l)%nat.
Proof.
  induction l as [|x l IH]; simpl; [lia|]. destruct (p x); simpl; lia.
Qed.

Lemma std_find_if_ext {A} (p q : A -> bool) (l : list A) :
  (forall x, p x = q x) -> std_find_if p l = std_find_if q l.
Proof.
  intros Hpq. induction l as [|x l IH]; simpl; [reflexivity|].
  rewrite Hpq, IH. reflexivity.
Qed.

Lemma erase_trailing_equals (s : list ascii) :
  erase_to_end (rfind_if_base (fun c => not_equals_sign (char_to_int c)) s) s
  = strip_trailing_padding s.
Proof.
  unfold erase_to_end, rfind_if_base.
  rewrite (std_find_if_ext _ _ (rev s) not_equals_sign_char).
  rewrite <- (rev_involutive s) at 3 4.
  rewrite strip_trailing_padding_rev, firstn_rev, length_rev.
  f_equal. f_equal.
  pose proof (std_find_if_le (fun c => negb (Ascii.eqb c "="%char)) (rev s)) as Hle.
  rewrite length_rev in Hle. lia.
Qed.

(** C2. For every verifier [v], [GetCodeChallenge v] is the base64 encoding
    of SHA-256([v]) with every [+] turned into [-], every [/] into [_], and
    the trailing [=] padding removed, that is base64url without padding; on
    the verifier [abc] it yields the known challenge. *)
Theorem GetCodeChallenge_base64url_nopad :
  (forall v : string,
      GetCodeChallenge v = base64url_nopad (SHA256.SHA256HashString v)) /\
  GetCodeChallenge "abc" = "ungWv48Bz-pBQUDeXa4iI7ADYaOWF3qctBD_YfIAFa0".
Proof.
  split.
  - intros v. unfold GetCodeChallenge, base64url_nopad.
    rewrite replace_twice_url_safe, erase_trailing_equals. reflexivity.
  - vm_compute. reflexivity.
Qed.

End CodeChallengeFacts.

(** ** The token store and the completion handlers *)

Module BinanceFacts.
Import Binance.

Section WithHost.
Context `{Host}.

(** [SetAccessTokens] in one step: the members are assigned first; the
    preferences are written only when both encryptions succeed. *)
Lemma SetAccessTokens_unfold (access refresh : string) (w : World) :
  SetAccessTokens access refresh w =
  match EncryptString access, EncryptString refresh with
  | Some ea, Some er =>
      (true,
       mkWorld (with_tokens (self w) access refresh)
               (<[kBinanceRefreshToken := Base64.Base64Encode er]>
                  (<[kBinanceAccessToken := Base64.Base64Encode ea]> (prefs w)))
               (trace w))
  | _, _ =>
      (false,
       mkWorld (with_tokens (self w) access refresh)
               (prefs w)
               (trace w ++ [LogError "Could not encrypt and save Binance token info"]))
  end.
Proof.
  unfold SetAccessTokens, bind, set_access_token_, set_refresh_token_,
    update_self, with_tokens.
  cbn [self prefs trace auth_token_ access_token_ refresh_token_
       code_challenge_ code_verifier_].
  destruct (EncryptString access) as [ea|];
    [destruct (EncryptString refresh) as [er|]|]; reflexivity.
Qed.

(** C5. If the encryption of the access token or of the refresh token
    fails, [SetAccessTokens] returns [false] and the preference store is what
    it was: neither token preference is written. *)
Theorem SetAccessTokens_failure_keeps_prefs
    (access_token refresh_token : string) (w : World) :
  EncryptString access_token = None \/ EncryptString refresh_token = None ->
  fst (SetAccessTokens access_token refresh_token w) = false /\
  prefs (snd (SetAccessTokens access_token refresh_token w)) = prefs w.
Proof.
  intros Hfail. rewrite SetAccessTokens_unfold.
  destruct (EncryptString access_token) as [ea|];
    [destruct (EncryptString refresh_token) as [er|]|].
  - destruct Hfail; discriminate.
  - split; reflexivity.
  - split; reflexivity.
Qed.

(** C9. The members are assigned before anything is encrypted: when an
    encryption fails, [access_token_] and [refresh_token_] hold the new
    tokens while the preference store still holds what it held, so the two
    copies differ from then on. *)
Theorem SetAccessTokens_failure_updates_members_only
    (access_token refresh_token : string) (w : World) :
  EncryptString access_token = None \/ EncryptString refresh_token = None ->
  let w' := snd (SetAccessTokens access_token refresh_token w) in
  fst (SetAccessTokens access_token refresh_token w) = false /\
  access_token_ (self w') = access_token /\
  refresh_token_ (self w') = refresh_token /\
  prefs w' = prefs w.
Proof.
  intros Hfail. cbv zeta. rewrite SetAccessTokens_unfold.
  destruct (EncryptString access_token) as [ea|];
    [destruct (EncryptString refresh_token) as [er|]|].
  - destruct Hfail; discriminate.
  - repeat split; reflexivity.
  - repeat split; reflexivity.
Qed.

Lemma LoadTokensFromPrefs_unfold (w : World) :
  LoadTokensFromPrefs w =
  match Base64Decode (default "" (prefs w !! kBinanceAccessToken)),
        Base64Decode (default "" (prefs w !! kBinanceRefreshToken)) with
  | Some ca, Some cr =>
      let da := DecryptString ca (access_token_ (self w)) in
      let dr := DecryptString cr (refresh_token_ (self w)) in
      if fst da then
        if fst dr then
          (true, mkWorld (with_tokens (self w) (snd da) (snd dr)) (prefs w) (trace w))
        else
          (false,
           mkWorld (with_tokens (self w) (snd da) (snd dr)) (prefs w)
                   (trace w ++ [LogError "Could not decrypt and save Binance token info."]))
      else
        (false,
         mkWorld (with_tokens (self w) (snd da) (refresh_token_ (self w))) (prefs w)
                 (trace w ++ [LogError "Could not decrypt and save Binance token info."]))
  | _, _ =>
      (false,
       mkWorld (self w) (prefs w)
               (trace w ++ [LogError "Could not Base64 decode Binance token info."]))
  end.
Proof.
  unfold LoadTokensFromPrefs, bind, prefs_GetString.
  destruct (Base64Decode (default "" (prefs w !! kBinanceAccessToken))) as [ca|];
    [destruct (Base64Decode (default "" (prefs w !! kBinanceRefreshToken))) as [cr|]|];
    try reflexivity.
  unfold decrypt_to_access_token_, decrypt_to_refresh_token_, with_tokens.
  destruct (DecryptString ca (access_token_ (self w))) as [[] oa]; cbn;
    [|reflexivity].
  destruct (DecryptString cr (refresh_token_ (self w))) as [[] or]; reflexivity.
Qed.

(** C4, as the code has it.  [LoadTokensFromPrefs] returns [false] on every
    decode or decryption failure.  On a base64-decode failure no member is
    written.  The members are written only through the output parameter of
    [OSCrypt::DecryptString]: when the access token does not decrypt,
    [refresh_token_] is untouched; when the access token decrypts and the
    refresh token does not, [access_token_] already holds the decrypted
    access token. *)
Theorem LoadTokensFromPrefs_failure (w : World) :
  let stored_access := default "" (prefs w !! kBinanceAccessToken) in
  let stored_refresh := default "" (prefs w !! kBinanceRefreshToken) in
  let out := LoadTokensFromPrefs w in
  (Base64Decode stored_access = None \/ Base64Decode stored_refresh = None ->
   fst out = false /\ self (snd out) = self w) /\
  (forall ca cr,
      Base64Decode stored_access = Some ca ->
      Base64Decode stored_refresh = Some cr ->
      fst (DecryptString ca (access_token_ (self w))) = false ->
      fst out = false /\
      self (snd out)
      = with_tokens (self w) (snd (DecryptString ca (access_token_ (self w))))
                    (refresh_token_ (self w))) /\
  (forall ca cr,
      Base64Decode stored_access = Some ca ->
      Base64Decode stored_refresh = Some cr ->
      fst (DecryptString ca (access_token_ (self w))) = true ->
      fst (DecryptString cr (refresh_token_ (self w))) = false ->
      fst out = false /\
      self (snd out)
      = with_tokens (self w) (snd (DecryptString ca (access_token_ (self w))))
                    (snd (DecryptString cr (refresh_token_ (self w))))).
Proof.
  cbv zeta. rewrite LoadTokensFromPrefs_unfold.
  split; [|split].
  - intros [E|E]; rewrite E;
      [|destruct (Base64Decode (default "" (prefs w !! kBinanceAccessToken)))];
      split; reflexivity.
  - intros ca cr Ha Hr Hda. rewrite Ha, Hr. cbv zeta. rewrite Hda.
    split; reflexivity.
  - intros ca cr Ha Hr Hda Hdr. rewrite Ha, Hr. cbv zeta. rewrite Hda, Hdr.
    split; reflexivity.
Qed.

Context `{BinanceJSONParser}.

Lemma outside_2xx (status : Z) :
  ~ (200 <= status <= 299) -> (200 <=? status) && (status <=? 299) = false.
Proof.
  intros Hout. apply andb_false_iff.
  destruct (Z.leb_spec 200 status); [right|left; reflexivity].
  apply Z.leb_gt. lia.
Qed.

Lemma inside_2xx (status : Z) :
  200 <= status <= 299 -> (200 <=? status) && (status <=? 299) = true.
Proof.
  intros [Hlo Hhi]. apply andb_true_iff. split; apply Z.leb_le; assumption.
Qed.

(** Outside the 2xx range every handler is its callback run on the
    defaults, in the world as it was: nothing is parsed, nothing is
    written. *)
Ltac skip_parsing Hout :=
  unfold bind, ret; rewrite (outside_2xx _ Hout); reflexivity.

Lemma OnGetAccountBalances_non_2xx callback status body headers (w : World) :
  ~ (200 <= status <= 299) ->
  OnGetAccountBalances callback status body headers w = callback ∅ false w.
Proof. intros Hout. unfold OnGetAccountBalances. skip_parsing Hout. Qed.

Lemma OnGetTickerPrice_non_2xx callback status body headers (w : World) :
  ~ (200 <= status <= 299) ->
  OnGetTickerPrice callback status body headers w = callback "0.00" w.
Proof. intros Hout. unfold OnGetTickerPrice. skip_parsing Hout. Qed.

Lemma OnGetTickerVolume_non_2xx callback status body headers (w : World) :
  ~ (200 <= status <= 299) ->
  OnGetTickerVolume callback status body headers w = callback "0" w.
Proof. intros Hout. unfold OnGetTickerVolume. skip_parsing Hout. Qed.

Lemma OnGetConvertQuote_non_2xx callback status body headers (w : World) :
  ~ (200 <= status <= 299) ->
  OnGetConvertQuote callback status body headers w = callback "" "" "" "" w.
Proof. intros Hout. unfold OnGetConvertQuote. skip_parsing Hout. Qed.

Lemma OnGetDepositInfo_non_2xx callback status body headers (w : World) :
  ~ (200 <= status <= 299) ->
  OnGetDepositInfo callback status body headers w = callback "" "" false w.
Proof. intros Hout. unfold OnGetDepositInfo. skip_parsing Hout. Qed.

Lemma OnConfirmConvert_non_2xx callback status body headers (w : World) :
  ~ (200 <= status <= 299) ->
  OnConfirmConvert callback status body headers w = callback false "" w.
Proof. intros Hout. unfold OnConfirmConvert. skip_parsing Hout. Qed.

Lemma OnGetConvertAssets_non_2xx callback status body headers (w : World) :
  ~ (200 <= status <= 299) ->
  OnGetConvertAssets callback status body headers w = callback ∅ w.
Proof. intros Hout. unfold OnGetConvertAssets. skip_parsing Hout. Qed.

Lemma OnRevokeToken_non_2xx callback status body headers (w : World) :
  ~ (200 <= status <= 299) ->
  OnRevokeToken callback status body headers w = callback false w.
Proof. intros Hout. unfold OnRevokeToken. skip_parsing Hout. Qed.

Lemma OnGetAccessToken_non_2xx callback status body headers (w : World) :
  ~ (200 <= status <= 299) ->
  OnGetAccessToken callback status body headers w = callback false w.
Proof. intros Hout. unfold OnGetAccessToken. skip_parsing Hout. Qed.

Lemma complete_non_2xx (h : RestHandler) status body headers (w : World) :
  ~ (200 <= status <= 299) ->
  complete h status body headers w
  = (tt, mkWorld (self w) (prefs w) (trace w ++ [CallbackRun (defaults h)])).
Proof.
  intros Hout. destruct h; unfold complete;
    [ rewrite OnGetAccountBalances_non_2xx | rewrite OnGetTickerPrice_non_2xx
    | rewrite OnGetTickerVolume_non_2xx | rewrite OnGetConvertQuote_non_2xx
    | rewrite OnGetDepositInfo_non_2xx | rewrite OnConfirmConvert_non_2xx
    | rewrite OnGetConvertAssets_non_2xx | rewrite OnRevokeToken_non_2xx ];
    try assumption; reflexivity.
Qed.

(** C6. For every REST completion handler and every status outside
    [200,299], the handler leaves the service and the preferences alone and
    the trace grows by exactly one event: its callback run with the
    handler's defaults (failure flag [false] where there is one).  No parser
    call is observed; a parser call can only come from a status within
    [200,299]. *)
Theorem rest_handler_non_2xx_defaults
    (h : RestHandler) (status : Z) (body : string)
    (headers : gmap string string) (w : World) :
  let w' := snd (complete h status body headers w) in
  (~ (200 <= status <= 299) ->
   self w' = self w /\ prefs w' = prefs w /\
   trace w' = trace w ++ [CallbackRun (defaults h)]) /\
  (forall method json,
      In (Parsed method json) (trace w') ->
      In (Parsed method json) (trace w) \/ 200 <= status <= 299).
Proof.
  cbv zeta. split.
  - intros Hout. rewrite complete_non_2xx by assumption.
    repeat split; reflexivity.
  - intros method json Hin.
    destruct (Z_le_dec 200 status) as [Hlo|Hlo];
      [destruct (Z_le_dec status 299) as [Hhi|Hhi]|].
    + right. lia.
    + left. rewrite complete_non_2xx in Hin by lia. cbn in Hin.
      apply in_app_or in Hin. destruct Hin as [Hin|[Hin|[]]];
        [assumption|discriminate].
    + left. rewrite complete_non_2xx in Hin by lia. cbn in Hin.
      apply in_app_or in Hin. destruct Hin as [Hin|[Hin|[]]];
        [assumption|discriminate].
Qed.

Lemma OnRevokeToken_success_unfold callback status body headers (w : World) :
  200 <= status <= 299 ->
  snd (RevokeTokenFromJSON body false) = true ->
  OnRevokeToken callback status body headers w
  = callback true
      (snd (SetAccessTokens "" ""
              (mkWorld (mkBinanceService (auth_token_ (self w))
                                         (access_token_ (self w))
                                         (refresh_token_ (self w)) "" "")
                       (prefs w)
                       (trace w ++ [Parsed RevokeTokenFromJSON_m body])))).
Proof.
  intros Hin Hok. unfold OnRevokeToken, bind, ret, parse.
  rewrite (inside_2xx _ Hin). unfold bind, ret, emit. rewrite Hok.
  unfold set_code_challenge_, set_code_verifier_, update_self.
  cbn [self prefs trace auth_token_ access_token_ refresh_token_
       code_challenge_ code_verifier_].
  destruct (SetAccessTokens _ _ _) as [r w']. reflexivity.
Qed.

Lemma both_prefs_after_insert (p : gmap string string) (v : string) :
  let p' := <[kBinanceRefreshToken := v]> (<[kBinanceAccessToken := v]> p) in
  default "" (p' !! kBinanceAccessToken) = v /\
  default "" (p' !! kBinanceRefreshToken) = v.
Proof.
  cbv zeta. split.
  - rewrite lookup_insert. case_decide; [reflexivity|].
    rewrite lookup_insert_eq. reflexivity.
  - rewrite lookup_insert_eq. reflexivity.
Qed.

(** C7, as the code has it.  On a successful revocation (a 2xx status and a
    body the parser reports as success) [OnRevokeToken] empties
    [code_challenge_], [code_verifier_], [access_token_] and
    [refresh_token_], saves the empty token pair through [SetAccessTokens]
    and then runs the callback with [true].  Both token preferences then hold
    the base64 encoding of the encrypted empty string: the empty string when
    the encryptor maps the empty plaintext to the empty ciphertext.  When the
    encryption fails the preferences keep what they held. *)
Theorem OnRevokeToken_success_clears
    (callback : bool -> M unit) (status : Z) (body : string)
    (headers : gmap string string) (w : World) :
  200 <= status <= 299 ->
  snd (RevokeTokenFromJSON body false) = true ->
  exists w',
    OnRevokeToken callback status body headers w = callback true w' /\
    self w' = mkBinanceService (auth_token_ (self w)) "" "" "" "" /\
    (forall c, EncryptString "" = Some c ->
       fst (prefs_GetString kBinanceAccessToken w') = Base64.Base64Encode c /\
       fst (prefs_GetString kBinanceRefreshToken w') = Base64.Base64Encode c) /\
    (EncryptString "" = Some "" ->
       fst (prefs_GetString kBinanceAccessToken w') = "" /\
       fst (prefs_GetString kBinanceRefreshToken w') = "") /\
    (EncryptString "" = None -> prefs w' = prefs w).
Proof.
  intros Hin Hok.
  rewrite (OnRevokeToken_success_unfold callback status body headers w Hin Hok).
  eexists. split; [reflexivity|].
  rewrite SetAccessTokens_unfold. unfold prefs_GetString.
  destruct (EncryptString "") as [c|]; cbn [snd fst self prefs trace].
  - split; [reflexivity|]. split; [|split].
    + intros c' Hc. injection Hc as <-. apply both_prefs_after_insert.
    + intros Hc. injection Hc as ->. apply (both_prefs_after_insert _ "").
    + discriminate.
  - split; [reflexivity|]. split; [|split]; [discriminate|discriminate|reflexivity].
Qed.

End WithHost.

(** *** The statements above at concrete inputs *)

Lemma SetAccessTokens_failure_keeps_prefs_witness :
  (EncryptString (Host := Fixtures.host_rejecting "ref2") "tok2" = None \/
   EncryptString (Host := Fixtures.host_rejecting "ref2") "ref2" = None) /\
  fst (SetAccessTokens (H := Fixtures.host_rejecting "ref2") "tok2" "ref2"
                       Fixtures.connected_world) = false /\
  prefs (snd (SetAccessTokens (H := Fixtures.host_rejecting "ref2") "tok2" "ref2"
                              Fixtures.connected_world))
  = Fixtures.stored_prefs.
Proof.
  split; [right; reflexivity|].
  apply (SetAccessTokens_failure_keeps_prefs
           (H := Fixtures.host_rejecting "ref2") "tok2" "ref2"
           Fixtures.connected_world).
  right; reflexivity.
Defined.

Lemma SetAccessTokens_failure_updates_members_only_witness :
  (EncryptString (Host := Fixtures.locked_host) "tok2" = None \/
   EncryptString (Host := Fixtures.locked_host) "ref2" = None) /\
  fst (SetAccessTokens (H := Fixtures.locked_host) "tok2" "ref2"
                       Fixtures.connected_world) = false /\
  access_token_ (self (snd (SetAccessTokens (H := Fixtures.locked_host) "tok2" "ref2"
                                            Fixtures.connected_world))) = "tok2" /\
  refresh_token_ (self (snd (SetAccessTokens (H := Fixtures.locked_host) "tok2" "ref2"
                                             Fixtures.connected_world))) = "ref2" /\
  prefs (snd (SetAccessTokens (H := Fixtures.locked_host) "tok2" "ref2"
                              Fixtures.connected_world))
  = Fixtures.stored_prefs.
Proof.
  split; [left; reflexivity|].
  apply (SetAccessTokens_failure_updates_members_only
           (H := Fixtures.locked_host) "tok2" "ref2" Fixtures.connected_world).
  left; reflexivity.
Defined.

(** The stored refresh token is base64 of a string that does not decrypt:
    the load fails, and [access_token_] is no longer empty. *)
Lemma LoadTokensFromPrefs_failure_sets_access_token :
  fst (DecryptString (Host := Fixtures.host) "garbage" "") = false /\
  ~ (fst (LoadTokensFromPrefs (H := Fixtures.host) Fixtures.damaged_world) = false /\
     access_token_
       (self (snd (LoadTokensFromPrefs (H := Fixtures.host) Fixtures.damaged_world)))
     = "" /\
     refresh_token_
       (self (snd (LoadTokensFromPrefs (H := Fixtures.host) Fixtures.damaged_world)))
     = "").
Proof.
  split; [reflexivity|].
  intros (_ & Haccess & _). vm_compute in Haccess. discriminate Haccess.
Qed.

Lemma LoadTokensFromPrefs_failure_witness :
  Base64Decode (Host := Fixtures.host) "djEwdG9r" = Some "v10tok" /\
  Base64Decode (Host := Fixtures.host) "Z2FyYmFnZQ==" = Some "garbage" /\
  fst (DecryptString (Host := Fixtures.host) "v10tok" "") = true /\
  fst (DecryptString (Host := Fixtures.host) "garbage" "") = false /\
  fst (LoadTokensFromPrefs (H := Fixtures.host) Fixtures.damaged_world) = false /\
  self (snd (LoadTokensFromPrefs (H := Fixtures.host) Fixtures.damaged_world))
  = mkBinanceService "" "tok" "" "" "".
Proof.
  repeat (split; [vm_compute; reflexivity|]).
  apply (proj2 (proj2 (LoadTokensFromPrefs_failure
                         (H := Fixtures.host) Fixtures.damaged_world))
           "v10tok" "garbage");
    vm_compute; reflexivity.
Defined.

Lemma rest_handler_non_2xx_defaults_witness :
  ~ (200 <= 404 <= 299) /\
  self (snd (complete (H := Fixtures.host) (H0 := Fixtures.parser)
                      TickerPriceHandler 404 "ok" ∅ Fixtures.connected_world))
  = Fixtures.connected_service /\
  prefs (snd (complete (H := Fixtures.host) (H0 := Fixtures.parser)
                       TickerPriceHandler 404 "ok" ∅ Fixtures.connected_world))
  = Fixtures.stored_prefs /\
  trace (snd (complete (H := Fixtures.host) (H0 := Fixtures.parser)
                       TickerPriceHandler 404 "ok" ∅ Fixtures.connected_world))
  = [CallbackRun (TickerPrice "0.00")].
Proof.
  split; [lia|].
  apply (proj1 (rest_handler_non_2xx_defaults
                  (H := Fixtures.host) (H0 := Fixtures.parser)
                  TickerPriceHandler 404 "ok" ∅ Fixtures.connected_world)).
  lia.
Defined.

(** The key store is locked when the revocation completes: the callback
    is run with [true], and the profile still holds the stored tokens. *)
Lemma OnRevokeToken_success_keeps_prefs_when_locked :
  In (CallbackRun (TokenRevoked true))
     (trace (snd (complete (H := Fixtures.locked_host) (H0 := Fixtures.parser)
                           RevokeTokenHandler 200 "ok" ∅ Fixtures.connected_world))) /\
  ~ (fst (prefs_GetString "brave.binance.access_token"
            (snd (complete (H := Fixtures.locked_host) (H0 := Fixtures.parser)
                           RevokeTokenHandler 200 "ok" ∅ Fixtures.connected_world)))
     = "" /\
     fst (prefs_GetString "brave.binance.refresh_token"
            (snd (complete (H := Fixtures.locked_host) (H0 := Fixtures.parser)
                           RevokeTokenHandler 200 "ok" ∅ Fixtures.connected_world)))
     = "").
Proof.
  split.
  - vm_compute. right. right. left. reflexivity.
  - intros (Haccess & _). vm_compute in Haccess. discriminate Haccess.
Qed.

Lemma OnRevokeToken_success_clears_witness :
  200 <= 200 <= 299 /\
  snd (RevokeTokenFromJSON (BinanceJSONParser := Fixtures.parser) "ok" false) = true /\
  exists w',
    OnRevokeToken (H := Fixtures.host) (H0 := Fixtures.parser)
                  (fun s => recording (TokenRevoked s)) 200 "ok" ∅
                  Fixtures.connected_world
    = recording (TokenRevoked true) w' /\
    self w' = Fixtures.fresh_service /\
    fst (prefs_GetString "brave.binance.access_token" w') = "" /\
    fst (prefs_GetString "brave.binance.refresh_token" w') = "".
Proof.
  split; [lia|]. split; [reflexivity|].
  destruct (OnRevokeToken_success_clears
              (H := Fixtures.host) (H0 := Fixtures.parser)
              (fun s => recording (TokenRevoked s)) 200 "ok" ∅
              Fixtures.connected_world)
    as (w' & Hrun & Hself & _ & Hempty & _); [lia|reflexivity|].
  exists w'. split; [exact Hrun|]. split; [exact Hself|].
  apply Hempty. reflexivity.
Defined.

End BinanceFacts.

(** ** The publisher-info table *)

Module DatabaseFacts.
Import Database.

Section WithLedger.
Context {PublisherBanner : Type} `{Ledger PublisherBanner}.

Abbreviation Info := (ServerPublisherInfo PublisherBanner).
Abbreviation Trace := (list (Event PublisherBanner)).

(** *** Migration *)

Lemma CreateTableV7_appends (t : DBTransaction) :
  CreateTableV7 t = (true, push_back t create_table_command).
Proof. reflexivity. Qed.

Lemma MigrateToV7_steps (t : DBTransaction) :
  MigrateToV7 t
  = until_first_failure
      [DropTable table_name_; CreateTableV7; CreateIndexV7; banner_Migrate 7] t.
Proof.
  unfold MigrateToV7, bind, ret. cbn [until_first_failure].
  destruct (DropTable table_name_ t) as [[] t1]; cbn [negb]; [|reflexivity].
  rewrite CreateTableV7_appends. cbn [negb].
  destruct (CreateIndexV7 _) as [[] t3]; cbn [negb]; [|reflexivity].
  destruct (banner_Migrate 7 t3) as [[] t4]; reflexivity.
Qed.

(** C8. [Migrate] dispatches on the exact target version.  For 7 it runs,
    in this order and stopping with [false] at the first failure: the drop
    of [server_publisher_info], the creation of the table, the creation of
    its index on [publisher_key], and the migration of the banner table to
    7.  Creating the table adds the [CREATE TABLE server_publisher_info]
    command at the end of the transaction's commands and does not fail.  For
    15 it only migrates the banner table.  For any other target the
    transaction is left as it was and the result is [true].  (Without a
    transaction, a null pointer, there is nothing to dispatch on: the result
    is [false].) *)
Theorem Migrate_dispatch (transaction : DBTransaction) (target : Z) :
  Migrate (Some transaction) 7
  = (let (ok, t') :=
       until_first_failure
         [DropTable "server_publisher_info";
          appending create_table_command;
          InsertIndex "server_publisher_info" "publisher_key";
          banner_Migrate 7] transaction in
     (ok, Some t')) /\
  (forall t,
      fst (CreateTableV7 t) = true /\
      commands (snd (CreateTableV7 t)) = commands t ++ [create_table_command]) /\
  Migrate (Some transaction) 15
  = (let (ok, t') := banner_Migrate 15 transaction in (ok, Some t')) /\
  (target <> 7 -> target <> 15 ->
   Migrate (Some transaction) target = (true, Some transaction)) /\
  Migrate None target = (false, None).
Proof.
  split; [|split; [|split; [|split; [|reflexivity]]]].
  - unfold Migrate. cbn [Z.eqb Pos.eqb]. rewrite MigrateToV7_steps.
    cbn [until_first_failure].
    destruct (DropTable table_name_ transaction) as [[] t1] eqn:Hdrop;
      change table_name_ with "server_publisher_info" in Hdrop;
      rewrite Hdrop; [|reflexivity].
    rewrite CreateTableV7_appends. unfold appending, push_back, CreateIndexV7.
    reflexivity.
  - intros t. rewrite CreateTableV7_appends. split; reflexivity.
  - reflexivity.
  - intros H7 H15. unfold Migrate.
    destruct (Z.eqb_spec target 7) as [->|_]; [contradiction|].
    destruct (Z.eqb_spec target 15) as [->|_]; [contradiction|].
    reflexivity.
Qed.

(** *** Replacing the list *)

Lemma InsertOrUpdate_appends (cs : list DBCommand) (i : Info) :
  InsertOrUpdate (mkTransaction cs) (Some i)
  = mkTransaction (cs ++ [upsert_command i]).
Proof. reflexivity. Qed.

Lemma insert_loop (infos : list (option Info)) (cs : list DBCommand) :
  fold_left
    (fun transaction (info : option Info) =>
       match info with
       | None => transaction
       | Some i =>
           let transaction := InsertOrUpdate transaction (Some i) in
           match banner i with
           | Some _ => banner_InsertOrUpdate transaction i
           | None => transaction
           end
       end)
    infos (mkTransaction cs)
  = mkTransaction (cs ++ flat_map commands_of infos).
Proof.
  revert cs. induction infos as [|info infos IH]; intros cs.
  - cbn. rewrite app_nil_r. reflexivity.
  - cbn [fold_left flat_map]. destruct info as [i|].
    + cbv zeta. rewrite InsertOrUpdate_appends.
      cbn [commands_of]. unfold banner_InsertOrUpdate.
      destruct (banner i) as [b|]; cbn [commands]; rewrite IH; f_equal;
        rewrite <- ?app_assoc; reflexivity.
    + rewrite IH. reflexivity.
Qed.

Lemma OnResultCallback_outcome (response : option DBCommandResponse)
    (callback : Result -> Trace) :
  OnResultCallback response callback = callback (outcome_of response).
Proof.
  destruct response as [[[] r]|]; reflexivity.
Qed.

(** C1. For every list, [ClearAndInsertList] hands the ledger exactly one
    transaction and then runs the callback exactly once with the success or
    failure of that transaction.  The transaction starts with the command
    that deletes all rows of [server_publisher_info]; it is that command
    alone for the empty list; otherwise it continues, in list order, with
    the insert-or-replace of each non-null record followed, when the record
    carries a banner, by the banner's upsert. *)
Theorem ClearAndInsertList_one_transaction
    (infos : list (option Info)) (callback : Result -> Trace) :
  ClearAndInsertList infos callback
  = TransactionRun (replace_all_transaction infos)
    :: callback (outcome_of (respond (replace_all_transaction infos))) /\
  ClearAndInsertList infos record_result
  = [TransactionRun (replace_all_transaction infos);
     ResultDelivered (outcome_of (respond (replace_all_transaction infos)))] /\
  commands (replace_all_transaction infos)
  = delete_all_command :: flat_map commands_of infos /\
  commands (replace_all_transaction []) = [delete_all_command].
Proof.
  assert (Hrun : forall cb : Result -> Trace,
             ClearAndInsertList infos cb
             = TransactionRun (replace_all_transaction infos)
               :: cb (outcome_of (respond (replace_all_transaction infos)))).
  { intros cb. unfold ClearAndInsertList. cbv zeta.
    change (push_back DBTransaction_New _) with (mkTransaction [delete_all_command]).
    destruct infos as [|info rest].
    - cbn [length Nat.eqb]. unfold RunDBTransaction.
      rewrite OnResultCallback_outcome. reflexivity.
    - cbn [length Nat.eqb]. rewrite insert_loop. unfold RunDBTransaction.
      rewrite OnResultCallback_outcome. reflexivity. }
  split; [apply Hrun|]. split; [apply Hrun|]. split; reflexivity.
Qed.

(** *** Looking a record up *)

Lemma GetRecord_unfold (key : string) (callback : option Info -> Trace) :
  GetRecord key callback
  = BannerRequested key
    :: TransactionRun (select_transaction key)
    :: OnGetRecord (respond (select_transaction key)) key (banner_or_new key)
                   callback.
Proof.
  unfold GetRecord, banner_GetRecord, OnGetRecordBanner, RunDBTransaction,
    banner_or_new.
  destruct (banner_lookup key); reflexivity.
Qed.

Lemma status_is_OK_false (s : ResponseStatus) :
  s <> RESPONSE_OK -> status_is_OK s = false.
Proof. destruct s; [contradiction|reflexivity..]. Qed.

Lemma status_is_OK_true (s : ResponseStatus) :
  status_is_OK s = true -> s = RESPONSE_OK.
Proof. destruct s; [reflexivity|discriminate..]. Qed.

(** The recorded outcomes of [OnGetRecord]: a present record comes from an
    OK response with exactly one row, and is the record composed from it. *)
Lemma OnGetRecord_recorded_present
    (response : option DBCommandResponse) (key : string)
    (b : PublisherBanner) (info : Info) :
  In (InfoDelivered (Some info)) (OnGetRecord response key b record_info) ->
  exists r row,
    response = Some r /\ response_status r = RESPONSE_OK /\
    result r = Some (records [row]) /\
    info = mkServerPublisherInfo key (GetIntColumn row 0) (GetBoolColumn row 1)
                                 (GetStringColumn row 2) (Some b).
Proof.
  unfold OnGetRecord, record_info.
  destruct response as [r|]; [|intros [Hin|[]]; discriminate Hin].
  destruct (status_is_OK (response_status r)) eqn:Hok; cbn [negb];
    [|intros [Hin|[]]; discriminate Hin].
  destruct (result r) as [[rows|v]|] eqn:Hres;
    [|intros [Hin|[]]; discriminate Hin..].
  destruct rows as [|row [|row' rows]]; cbn [length Nat.eqb negb];
    try (intros [Hin|[]]; discriminate Hin).
  intros [Hin|[]]. injection Hin as <-.
  exists r, row. split; [reflexivity|]. split; [apply status_is_OK_true, Hok|].
  split; [exact Hres|reflexivity].
Qed.

Lemma GetRecord_recorded_present (key : string) (info : Info) :
  In (InfoDelivered (Some info)) (GetRecord key record_info) ->
  exists r row,
    respond (select_transaction key) = Some r /\
    response_status r = RESPONSE_OK /\
    result r = Some (records [row]) /\
    info = composed key row.
Proof.
  rewrite GetRecord_unfold. intros [Hin|[Hin|Hin]]; [discriminate Hin..|].
  apply OnGetRecord_recorded_present in Hin. exact Hin.
Qed.

(** C3. [GetRecord] asks for the banner, runs the select for the key, and
    completes in [OnGetRecord].  The callback is run with an absent record
    when the response is missing, when its status is not OK, and when the
    number of rows is not exactly one.  With exactly one row it is run with
    the record composed of the key, the row's status, excluded and address
    columns, and the banner.  A present record is never delivered in any
    other case. *)
Theorem GetRecord_absent_unless_one_row
    (key : string) (callback : option Info -> Trace) :
  GetRecord key callback
  = BannerRequested key
    :: TransactionRun (select_transaction key)
    :: OnGetRecord (respond (select_transaction key)) key (banner_or_new key)
                   callback /\
  (forall b, OnGetRecord None key b callback = callback None) /\
  (forall r b,
      response_status r <> RESPONSE_OK ->
      OnGetRecord (Some r) key b callback = callback None) /\
  (forall r rows b,
      response_status r = RESPONSE_OK ->
      result r = Some (records rows) ->
      length rows <> 1%nat ->
      OnGetRecord (Some r) key b callback = callback None) /\
  (forall r row b,
      response_status r = RESPONSE_OK ->
      result r = Some (records [row]) ->
      OnGetRecord (Some r) key b callback
      = callback (Some (mkServerPublisherInfo
                          key (GetIntColumn row 0) (GetBoolColumn row 1)
                          (GetStringColumn row 2) (Some b)))) /\
  (forall info,
      In (InfoDelivered (Some info)) (GetRecord key record_info) ->
      exists r row,
        respond (select_transaction key) = Some r /\
        response_status r = RESPONSE_OK /\
        result r = Some (records [row]) /\
        info = composed key row).
Proof.
  split; [apply GetRecord_unfold|].
  split; [reflexivity|].
  split.
  { intros r b Hbad. unfold OnGetRecord.
    rewrite (status_is_OK_false _ Hbad). reflexivity. }
  split.
  { intros r rows b Hok Hres Hlen. unfold OnGetRecord.
    rewrite Hok, Hres. cbn [status_is_OK negb].
    destruct (Nat.eqb_spec (length rows) 1) as [Heq|_]; [contradiction|].
    reflexivity. }
  split.
  { intros r row b Hok Hres. unfold OnGetRecord.
    rewrite Hok, Hres. reflexivity. }
  apply GetRecord_recorded_present.
Qed.

(** C10. Whenever the lookup delivers a present record, its
    [publisher_key] is the key that was asked for, and its banner is
    present: the banner the banner table found, or a freshly constructed one
    when it found none. *)
Theorem GetRecord_present_has_key_and_banner (key : string) (info : Info) :
  In (InfoDelivered (Some info)) (GetRecord key record_info) ->
  publisher_key info = key /\
  banner info = Some (banner_or_new key) /\
  banner info <> None /\
  (banner_lookup key = None -> banner info = Some PublisherBanner_New).
Proof.
  intros Hin. apply GetRecord_recorded_present in Hin.
  destruct Hin as (r & row & _ & _ & _ & ->). unfold composed.
  cbn [publisher_key banner].
  split; [reflexivity|]. split; [reflexivity|]. split; [discriminate|].
  intros Hnone. unfold banner_or_new. rewrite Hnone. reflexivity.
Qed.

End WithLedger.

(** *** The statements above at concrete inputs *)

Lemma Migrate_dispatch_witness :
  3 <> 7 /\ 3 <> 15 /\
  Migrate (H := Fixtures.ledger) (Some DBTransaction_New) 3
  = (true, Some DBTransaction_New) /\
  Migrate (H := Fixtures.ledger) (Some DBTransaction_New) 7
  = (true,
     Some (mkTransaction
             [mkCommand EXECUTE "DROP TABLE IF EXISTS server_publisher_info" [] [];
              create_table_command;
              mkCommand EXECUTE
                        "CREATE INDEX ON server_publisher_info (publisher_key)"
                        [] [];
              mkCommand MIGRATE "server_publisher_banner" [] []])).
Proof.
  split; [lia|]. split; [lia|]. split.
  - apply (proj1 (proj2 (proj2 (proj2 (Migrate_dispatch
                                         (H := Fixtures.ledger)
                                         DBTransaction_New 3)))));
      lia.
  - rewrite (proj1 (Migrate_dispatch (H := Fixtures.ledger)
                                     DBTransaction_New 3)).
    reflexivity.
Defined.

Lemma GetRecord_absent_unless_one_row_witness :
  response_status (mkResponse RESPONSE_OK (Some (records [Fixtures.one_row])))
  = RESPONSE_OK /\
  result (mkResponse RESPONSE_OK (Some (records [Fixtures.one_row])))
  = Some (records [Fixtures.one_row]) /\
  OnGetRecord (H := Fixtures.ledger)
              (Some (mkResponse RESPONSE_OK (Some (records [Fixtures.one_row]))))
              "brave.com" "Brave" record_info
  = [InfoDelivered
       (Some (mkServerPublisherInfo "brave.com" 2 false "wallet" (Some "Brave")))].
Proof.
  split; [reflexivity|]. split; [reflexivity|].
  apply (proj1 (proj2 (proj2 (proj2 (proj2
           (GetRecord_absent_unless_one_row
              (H := Fixtures.ledger) "brave.com" record_info)))))
           (mkResponse RESPONSE_OK (Some (records [Fixtures.one_row])))
           Fixtures.one_row "Brave");
    reflexivity.
Defined.

Lemma GetRecord_present_has_key_and_banner_witness :
  In (InfoDelivered
        (Some (mkServerPublisherInfo "example.org" 2 false "wallet" (Some ""))))
     (GetRecord (H := Fixtures.ledger) "example.org" record_info) /\
  publisher_key (mkServerPublisherInfo "example.org" 2 false "wallet" (Some ""))
  = "example.org" /\
  banner (mkServerPublisherInfo "example.org" 2 false "wallet" (Some ""))
  = Some (banner_or_new (H := Fixtures.ledger) "example.org") /\
  banner (mkServerPublisherInfo "example.org" 2 false "wallet" (Some "")) <> None /\
  (banner_lookup (Ledger := Fixtures.ledger) "example.org" = None ->
   banner (mkServerPublisherInfo "example.org" 2 false "wallet" (Some ""))
   = Some (PublisherBanner_New (Ledger := Fixtures.ledger))).
Proof.
  split; [right; right; left; reflexivity|].
  apply (GetRecord_present_has_key_and_banner
           (H := Fixtures.ledger) "example.org"
           (mkServerPublisherInfo "example.org" 2 false "wallet" (Some ""))).
  right; right; left; reflexivity.
Defined.

End DatabaseFacts.

(** ** More on the token store *)

Module TokenStoreFacts.
Import Binance BinanceSession BinanceFacts.

Section WithHost.
Context `{Host}.

(** X1. A token pair saved by [SetAccessTokens] is what
    [LoadTokensFromPrefs] reads back from the same preferences, also in a
    service constructed afterwards, provided the two preferences have
    different names, the decoder inverts the encoder on the two ciphertexts
    and decryption inverts encryption on them. *)
Theorem SetAccessTokens_LoadTokensFromPrefs_round_trip
    (access refresh ca cr : string) (w w2 : World) :
  kBinanceAccessToken <> kBinanceRefreshToken ->
  EncryptString access = Some ca ->
  EncryptString refresh = Some cr ->
  Base64Decode (Base64.Base64Encode ca) = Some ca ->
  Base64Decode (Base64.Base64Encode cr) = Some cr ->
  (forall out, DecryptString ca out = (true, access)) ->
  (forall out, DecryptString cr out = (true, refresh)) ->
  prefs w2 = prefs (snd (SetAccessTokens access refresh w)) ->
  fst (SetAccessTokens access refresh w) = true /\
  fst (LoadTokensFromPrefs w2) = true /\
  access_token_ (self (snd (LoadTokensFromPrefs w2))) = access /\
  refresh_token_ (self (snd (LoadTokensFromPrefs w2))) = refresh /\
  access_token_
    (self (BinanceService_new (prefs (snd (SetAccessTokens access refresh w)))))
  = access /\
  refresh_token_
    (self (BinanceService_new (prefs (snd (SetAccessTokens access refresh w)))))
  = refresh.
Proof.
  intros Hnames Hea Her Hba Hbr Hda Hdr Hprefs.
  rewrite SetAccessTokens_unfold in *. rewrite Hea, Her in *.
  cbn [fst snd prefs] in *.
  assert (Hload : forall w',
             prefs w' = <[kBinanceRefreshToken := Base64.Base64Encode cr]>
                          (<[kBinanceAccessToken := Base64.Base64Encode ca]> (prefs w)) ->
             fst (LoadTokensFromPrefs w') = true /\
             self (snd (LoadTokensFromPrefs w'))
             = with_tokens (self w') access refresh).
  { intros w' Hp. rewrite LoadTokensFromPrefs_unfold. rewrite Hp.
    rewrite lookup_insert_ne by congruence.
    rewrite !lookup_insert_eq. cbn [from_option id].
    rewrite Hba, Hbr. cbv zeta. rewrite Hda, Hdr. split; reflexivity. }
  split; [reflexivity|].
  unfold BinanceService_new.
  destruct (Hload w2 Hprefs) as [Hok Hself].
  destruct (Hload (mkWorld (mkBinanceService "" "" "" "" "")
                           (<[kBinanceRefreshToken := Base64.Base64Encode cr]>
                              (<[kBinanceAccessToken := Base64.Base64Encode ca]>
                                 (prefs w))) []) eq_refl) as [_ Hnew].
  rewrite Hself, Hnew. repeat split; assumption || reflexivity.
Qed.

(** X2. [LoadTokensFromPrefs] returns [true] exactly when both stored values
    decode and both ciphertexts decrypt.  It never writes a preference, never
    touches [auth_token_], [code_challenge_] or [code_verifier_], logs
    nothing when it succeeds and exactly one error when it fails. *)
Theorem LoadTokensFromPrefs_result (w : World) :
  (fst (LoadTokensFromPrefs w) = true <->
   exists ca cr,
     Base64Decode (default "" (prefs w !! kBinanceAccessToken)) = Some ca /\
     Base64Decode (default "" (prefs w !! kBinanceRefreshToken)) = Some cr /\
     fst (DecryptString ca (access_token_ (self w))) = true /\
     fst (DecryptString cr (refresh_token_ (self w))) = true) /\
  prefs (snd (LoadTokensFromPrefs w)) = prefs w /\
  auth_token_ (self (snd (LoadTokensFromPrefs w))) = auth_token_ (self w) /\
  code_challenge_ (self (snd (LoadTokensFromPrefs w))) = code_challenge_ (self w) /\
  code_verifier_ (self (snd (LoadTokensFromPrefs w))) = code_verifier_ (self w) /\
  (fst (LoadTokensFromPrefs w) = true ->
   trace (snd (LoadTokensFromPrefs w)) = trace w) /\
  (fst (LoadTokensFromPrefs w) = false ->
   exists message,
     trace (snd (LoadTokensFromPrefs w)) = trace w ++ [LogError message]).
Proof.
  rewrite LoadTokensFromPrefs_unfold.
  destruct (Base64Decode (default "" (prefs w !! kBinanceAccessToken))) as [ca|];
    [destruct (Base64Decode (default "" (prefs w !! kBinanceRefreshToken)))
       as [cr|]|].
  - cbv zeta.
    destruct (DecryptString ca (access_token_ (self w))) as [oka outa] eqn:Ea.
    destruct (DecryptString cr (refresh_token_ (self w))) as [okr outr] eqn:Er.
    destruct oka, okr; cbn [fst snd self prefs trace with_tokens auth_token_
                            code_challenge_ code_verifier_];
      (split;
       [ split;
         [ try discriminate; intros _; exists ca, cr;
           rewrite Ea, Er; repeat split; reflexivity
         | intros (ca' & cr' & Hca & Hcr & Ha & Hr);
           injection Hca as <-; injection Hcr as <-;
           rewrite Ea in Ha; rewrite Er in Hr; cbn in Ha, Hr;
           try reflexivity; congruence ]
       | repeat split; try reflexivity; try discriminate;
         intros _; eexists; reflexivity ]).
  - cbn [fst snd self prefs trace].
    split; [split; [discriminate|intros (ca' & cr' & _ & Hcr & _); discriminate]|].
    repeat split; try reflexivity; try discriminate.
    intros _; eexists; reflexivity.
  - cbn [fst snd self prefs trace].
    split; [split; [discriminate|intros (ca' & cr' & Hca & _); discriminate]|].
    repeat split; try reflexivity; try discriminate.
    intros _; eexists; reflexivity.
Qed.

(** X3. [SetAccessTokens] never touches [auth_token_], [code_challenge_] or
    [code_verifier_] and never writes a preference other than the two token
    preferences.  When both encryptions succeed it returns [true], logs
    nothing, and the two preferences (of different names) hold the base64
    encodings of the two ciphertexts. *)
Theorem SetAccessTokens_frame_and_success
    (access refresh : string) (w : World) :
  auth_token_ (self (snd (SetAccessTokens access refresh w))) = auth_token_ (self w) /\
  code_challenge_ (self (snd (SetAccessTokens access refresh w)))
  = code_challenge_ (self w) /\
  code_verifier_ (self (snd (SetAccessTokens access refresh w)))
  = code_verifier_ (self w) /\
  (forall name,
      name <> kBinanceAccessToken -> name <> kBinanceRefreshToken ->
      prefs (snd (SetAccessTokens access refresh w)) !! name = prefs w !! name) /\
  (forall ca cr,
      kBinanceAccessToken <> kBinanceRefreshToken ->
      EncryptString access = Some ca ->
      EncryptString refresh = Some cr ->
      fst (SetAccessTokens access refresh w) = true /\
      trace (snd (SetAccessTokens access refresh w)) = trace w /\
      prefs (snd (SetAccessTokens access refresh w)) !! kBinanceAccessToken
      = Some (Base64.Base64Encode ca) /\
      prefs (snd (SetAccessTokens access refresh w)) !! kBinanceRefreshToken
      = Some (Base64.Base64Encode cr)).
Proof.
  rewrite SetAccessTokens_unfold.
  split; [|split; [|split; [|split]]].
  - destruct (EncryptString access); [destruct (EncryptString refresh)|];
      reflexivity.
  - destruct (EncryptString access); [destruct (EncryptString refresh)|];
      reflexivity.
  - destruct (EncryptString access); [destruct (EncryptString refresh)|];
      reflexivity.
  - intros name Ha Hr.
    destruct (EncryptString access); [destruct (EncryptString refresh)|];
      cbn [snd prefs]; try reflexivity.
    rewrite !lookup_insert_ne by congruence. reflexivity.
  - intros ca cr Hnames -> ->. cbn [fst snd prefs trace].
    split; [reflexivity|]. split; [reflexivity|]. split.
    + rewrite lookup_insert_ne by congruence. apply lookup_insert_eq.
    + apply lookup_insert_eq.
Qed.

End WithHost.

Lemma SetAccessTokens_LoadTokensFromPrefs_round_trip_witness :
  fst (LoadTokensFromPrefs (H := Fixtures.host)
         (mkWorld Fixtures.fresh_service
            (prefs (snd (SetAccessTokens (H := Fixtures.host) "tok" "ref"
                           (mkWorld Fixtures.fresh_service ∅ []))))
            [])) = true /\
  access_token_
    (self (BinanceService_new (H := Fixtures.host)
             (prefs (snd (SetAccessTokens (H := Fixtures.host) "tok" "ref"
                            (mkWorld Fixtures.fresh_service ∅ []))))))
  = "tok" /\
  refresh_token_
    (self (BinanceService_new (H := Fixtures.host)
             (prefs (snd (SetAccessTokens (H := Fixtures.host) "tok" "ref"
                            (mkWorld Fixtures.fresh_service ∅ []))))))
  = "ref".
Proof.
  pose proof (SetAccessTokens_LoadTokensFromPrefs_round_trip
                (H := Fixtures.host) "tok" "ref" "v10tok" "v10ref"
                (mkWorld Fixtures.fresh_service ∅ [])
                (mkWorld Fixtures.fresh_service
                   (prefs (snd (SetAccessTokens (H := Fixtures.host) "tok" "ref"
                                  (mkWorld Fixtures.fresh_service ∅ []))))
                   [])) as T.
  destruct T as (_ & Hload & _ & _ & Ha & Hr);
    [ discriminate | reflexivity | reflexivity | reflexivity | reflexivity
    | intros out; reflexivity | intros out; reflexivity | reflexivity | ].
  split; [exact Hload|]. split; [exact Ha|exact Hr].
Defined.

Lemma LoadTokensFromPrefs_result_witness :
  (exists ca cr,
      Base64Decode (Host := Fixtures.host)
        (default "" (Fixtures.stored_prefs !! "brave.binance.access_token"))
      = Some ca /\
      Base64Decode (Host := Fixtures.host)
        (default "" (Fixtures.stored_prefs !! "brave.binance.refresh_token"))
      = Some cr /\
      fst (DecryptString (Host := Fixtures.host) ca "") = true /\
      fst (DecryptString (Host := Fixtures.host) cr "") = true) /\
  fst (LoadTokensFromPrefs (H := Fixtures.host)
         (mkWorld Fixtures.fresh_service Fixtures.stored_prefs [])) = true.
Proof.
  assert (Hdec : exists ca cr,
      Base64Decode (Host := Fixtures.host)
        (default "" (Fixtures.stored_prefs !! "brave.binance.access_token"))
      = Some ca /\
      Base64Decode (Host := Fixtures.host)
        (default "" (Fixtures.stored_prefs !! "brave.binance.refresh_token"))
      = Some cr /\
      fst (DecryptString (Host := Fixtures.host) ca "") = true /\
      fst (DecryptString (Host := Fixtures.host) cr "") = true).
  { exists "v10tok", "v10ref". repeat split; vm_compute; reflexivity. }
  split; [exact Hdec|].
  apply (proj2 (proj1 (LoadTokensFromPrefs_result
                         (H := Fixtures.host)
                         (mkWorld Fixtures.fresh_service Fixtures.stored_prefs [])))).
  exact Hdec.
Defined.

Lemma SetAccessTokens_frame_and_success_witness :
  kBinanceAccessToken (Host := Fixtures.host)
  <> kBinanceRefreshToken (Host := Fixtures.host) /\
  EncryptString (Host := Fixtures.host) "tok2" = Some "v10tok2" /\
  EncryptString (Host := Fixtures.host) "ref2" = Some "v10ref2" /\
  fst (SetAccessTokens (H := Fixtures.host) "tok2" "ref2" Fixtures.connected_world)
  = true /\
  trace (snd (SetAccessTokens (H := Fixtures.host) "tok2" "ref2"
                              Fixtures.connected_world)) = [] /\
  prefs (snd (SetAccessTokens (H := Fixtures.host) "tok2" "ref2"
                              Fixtures.connected_world))
    !! "brave.binance.access_token" = Some "djEwdG9rMg==" /\
  prefs (snd (SetAccessTokens (H := Fixtures.host) "tok2" "ref2"
                              Fixtures.connected_world))
    !! "brave.binance.refresh_token" = Some "djEwcmVmMg==".
Proof.
  split; [discriminate|]. split; [reflexivity|]. split; [reflexivity|].
  apply (proj2 (proj2 (proj2 (proj2
           (SetAccessTokens_frame_and_success
              (H := Fixtures.host) "tok2" "ref2" Fixtures.connected_world))))
           "v10tok2" "v10ref2");
    [discriminate|reflexivity|reflexivity].
Defined.

End TokenStoreFacts.


(** ** More on the completion handlers *)

Module HandlerFacts.
Import Binance BinanceSession BinanceFacts.

Section WithHost.
Context `{Host} `{BinanceJSONParser}.

(** X4. Within the 2xx range [OnGetAccessToken] parses both tokens from the
    body, assigns them to the members through [SetAccessTokens], and reports
    whether the access token is non-empty; the result of [SetAccessTokens]
    is not looked at, so the report is the same when the tokens could not be
    persisted, the preferences being left as they were.  Outside the range
    it reports [false] and changes nothing. *)
Theorem OnGetAccessToken_reports_parsed_token
    (callback : bool -> M unit) (status : Z) (body : string)
    (headers : gmap string string) (w : World) :
  (200 <= status <= 299 ->
   exists w',
     OnGetAccessToken callback status body headers w
     = callback
         (negb (String.eqb (snd (GetTokensFromJSON body "" "access_token")) ""))
         w' /\
     access_token_ (self w') = snd (GetTokensFromJSON body "" "access_token") /\
     refresh_token_ (self w') = snd (GetTokensFromJSON body "" "refresh_token") /\
     (EncryptString (snd (GetTokensFromJSON body "" "access_token")) = None \/
      EncryptString (snd (GetTokensFromJSON body "" "refresh_token")) = None ->
      prefs w' = prefs w)) /\
  (~ (200 <= status <= 299) ->
   OnGetAccessToken callback status body headers w = callback false w).
Proof.
  split; [|apply OnGetAccessToken_non_2xx].
  intros Hin. unfold OnGetAccessToken, bind, ret, parse.
  rewrite (inside_2xx _ Hin). unfold bind, ret, emit.
  cbn [self prefs trace].
  rewrite SetAccessTokens_unfold. cbn [self prefs trace].
  destruct (EncryptString (snd (GetTokensFromJSON body "" "access_token")))
    as [ca|] eqn:Ea;
    [destruct (EncryptString (snd (GetTokensFromJSON body "" "refresh_token")))
       as [cr|] eqn:Er|];
    eexists; (split; [reflexivity|]); cbn [self prefs with_tokens access_token_
                                           refresh_token_];
    (split; [reflexivity|]); (split; [reflexivity|]);
    try reflexivity; intros [E|E]; discriminate E.
Qed.

(** X5. Unless the status is 2xx and the parser reports success,
    [OnRevokeToken] runs its callback with [false] and leaves the members
    and the preferences as they were. *)
Theorem OnRevokeToken_unsuccessful_keeps_tokens
    (callback : bool -> M unit) (status : Z) (body : string)
    (headers : gmap string string) (w : World) :
  ~ (200 <= status <= 299) \/ snd (RevokeTokenFromJSON body false) = false ->
  exists w',
    OnRevokeToken callback status body headers w = callback false w' /\
    self w' = self w /\ prefs w' = prefs w.
Proof.
  intros [Hout|Hfail].
  - exists w. split; [apply OnRevokeToken_non_2xx, Hout|]. split; reflexivity.
  - destruct (Z_le_dec 200 status) as [Hlo|Hlo];
      [destruct (Z_le_dec status 299) as [Hhi|Hhi]|].
    + unfold OnRevokeToken, bind, ret, parse.
      rewrite (inside_2xx _ (conj Hlo Hhi)). unfold bind, ret, emit.
      rewrite Hfail. eexists. split; [reflexivity|]. split; reflexivity.
    + exists w. split; [apply OnRevokeToken_non_2xx; lia|]. split; reflexivity.
    + exists w. split; [apply OnRevokeToken_non_2xx; lia|]. split; reflexivity.
Qed.

(** The trace of a handler within the 2xx range: one parser call on the
    body, at most one error log (the revocation that could not persist the
    cleared tokens), then the callback. *)
Lemma complete_2xx (h : RestHandler) status body headers (w : World) :
  200 <= status <= 299 ->
  exists logs,
    trace (snd (complete h status body headers w))
    = trace w ++ Parsed (parser_of h) body :: logs
              ++ [CallbackRun (parsed_completion h body)] /\
    (logs = [] \/ exists message, logs = [LogError message]).
Proof.
  intros Hin. pose proof (inside_2xx _ Hin) as Hb.
  destruct h; unfold complete, parsed_completion, parser_of.
  - unfold OnGetAccountBalances, bind, ret, parse, recording, emit.
    rewrite Hb. cbn. exists []. rewrite <- app_assoc. split; [reflexivity|].
    left; reflexivity.
  - unfold OnGetTickerPrice, bind, ret, parse, recording, emit.
    rewrite Hb. cbn. exists []. rewrite <- app_assoc. split; [reflexivity|].
    left; reflexivity.
  - unfold OnGetTickerVolume, bind, ret, parse, recording, emit.
    rewrite Hb. cbn. exists []. rewrite <- app_assoc. split; [reflexivity|].
    left; reflexivity.
  - unfold OnGetConvertQuote, bind, ret, parse, recording, emit.
    rewrite Hb. cbn.
    destruct (GetQuoteInfoFromJSON body ("", "", "", ""))
      as [r [[[i p] f] a]]. cbn.
    exists []. rewrite <- app_assoc. split; [reflexivity|]. left; reflexivity.
  - unfold OnGetDepositInfo, bind, ret, parse, recording, emit.
    rewrite Hb. cbn.
    destruct (GetDepositInfoFromJSON body ("", "")) as [r [a u]]. cbn.
    exists []. rewrite <- app_assoc. split; [reflexivity|]. left; reflexivity.
  - unfold OnConfirmConvert, bind, ret, parse, recording, emit.
    rewrite Hb. cbn.
    destruct (GetConfirmStatusFromJSON body ("", false)) as [r [e s]]. cbn.
    exists []. rewrite <- app_assoc. split; [reflexivity|]. left; reflexivity.
  - unfold OnGetConvertAssets, bind, ret, parse, recording, emit.
    rewrite Hb. cbn. exists []. rewrite <- app_assoc. split; [reflexivity|].
    left; reflexivity.
  - destruct (snd (RevokeTokenFromJSON body false)) eqn:Hok.
    + rewrite (OnRevokeToken_success_unfold _ status body headers w Hin Hok).
      rewrite SetAccessTokens_unfold. unfold recording, emit.
      cbn [self prefs trace].
      destruct (EncryptString "") as [c|]; cbn [snd trace].
      * exists []. rewrite <- app_assoc. split; [reflexivity|]. left; reflexivity.
      * eexists [_]. rewrite <- !app_assoc. split; [reflexivity|].
        right; eexists; reflexivity.
    + unfold OnRevokeToken, bind, ret, parse, recording, emit.
      rewrite Hb. unfold bind, ret. rewrite Hok. cbn.
      exists []. rewrite <- app_assoc. split; [reflexivity|]. left; reflexivity.
Qed.

Lemma filter_snoc {A} (p : A -> bool) (l : list A) (x : A) :
  List.filter p (l ++ [x]) = List.filter p l ++ (if p x then [x] else []).
Proof.
  induction l as [|a l IH]; cbn [app List.filter].
  - destruct (p x); reflexivity.
  - rewrite IH. destruct (p a); reflexivity.
Qed.

(** X6. Whatever the status, a handler runs its callback exactly once, as
    the last thing it does, and calls the parser at most once: once, on the
    response body, within the 2xx range, and not at all outside it. *)
Theorem rest_handler_runs_callback_once
    (h : RestHandler) (status : Z) (body : string)
    (headers : gmap string string) (w : World) :
  callback_runs (trace (snd (complete h status body headers w)))
  = S (callback_runs (trace w)) /\
  (exists before c,
      trace (snd (complete h status body headers w)) = before ++ [CallbackRun c]) /\
  parser_calls (trace (snd (complete h status body headers w)))
  = parser_calls (trace w)
    ++ (if (200 <=? status) && (status <=? 299)
        then [Parsed (parser_of h) body] else []).
Proof.
  destruct (Z_le_dec 200 status) as [Hlo|Hlo];
    [destruct (Z_le_dec status 299) as [Hhi|Hhi]|].
  - destruct (complete_2xx h status body headers w (conj Hlo Hhi))
      as (logs & -> & Hlogs).
    rewrite (inside_2xx _ (conj Hlo Hhi)).
    unfold callback_runs, parser_calls.
    destruct Hlogs as [->|[message ->]]; cbn [app];
      (split; [|split]);
      try (rewrite !List.filter_app; cbn; rewrite ?length_app; cbn; lia);
      try (rewrite !List.filter_app; reflexivity).
    + exists (trace w ++ [Parsed (parser_of h) body]), (parsed_completion h body).
      rewrite <- app_assoc. reflexivity.
    + exists (trace w ++ [Parsed (parser_of h) body; LogError message]),
        (parsed_completion h body).
      rewrite <- app_assoc. reflexivity.
  - rewrite complete_non_2xx by lia. rewrite outside_2xx by lia.
    cbn [snd trace]. unfold callback_runs, parser_calls.
    rewrite !filter_snoc. cbn. rewrite length_app, app_nil_r. cbn.
    split; [lia|]. split; [|reflexivity]. eexists _, _; reflexivity.
  - rewrite complete_non_2xx by lia. rewrite outside_2xx by lia.
    cbn [snd trace]. unfold callback_runs, parser_calls.
    rewrite !filter_snoc. cbn. rewrite length_app, app_nil_r. cbn.
    split; [lia|]. split; [|reflexivity]. eexists _, _; reflexivity.
Qed.

(** X7. Within the 2xx range the callback receives what the parser left in
    the output parameters, which start at the defaults: a parser that leaves
    them alone gives the defaults again.  The success flag of the balances
    and deposit callbacks is [true] for every 2xx status, whatever the parser
    returns. *)
Theorem rest_handler_2xx_delivers_parsed
    (h : RestHandler) (status : Z) (body : string)
    (headers : gmap string string) (w : World) :
  200 <= status <= 299 ->
  (exists before,
      trace (snd (complete h status body headers w))
      = before ++ [CallbackRun (parsed_completion h body)]) /\
  (forall flag, status_flag (parsed_completion h body) = Some flag -> flag = true).
Proof.
  intros Hin. split.
  - destruct (complete_2xx h status body headers w Hin) as (logs & -> & _).
    exists (trace w ++ Parsed (parser_of h) body :: logs).
    rewrite <- app_assoc. reflexivity.
  - intros flag. destruct h; unfold parsed_completion; cbn;
      try discriminate; try (intros [= <-]; reflexivity).
    + destruct (snd (GetQuoteInfoFromJSON body ("", "", "", "")))
        as [[[i p] f] a]. discriminate.
    + destruct (snd (GetDepositInfoFromJSON body ("", ""))) as [a u].
      cbn. intros [= <-]. reflexivity.
    + destruct (snd (GetConfirmStatusFromJSON body ("", false))) as [e s].
      discriminate.
Qed.

End WithHost.

Lemma OnGetAccessToken_reports_parsed_token_witness :
  200 <= 200 <= 299 /\
  exists w',
    OnGetAccessToken (H := Fixtures.locked_host) (H0 := Fixtures.parser)
                     (fun s => recording (AccessToken s)) 200 "abc" ∅
                     Fixtures.connected_world
    = recording (AccessToken true) w' /\
    access_token_ (self w') = "abc.access_token" /\
    refresh_token_ (self w') = "abc.refresh_token" /\
    prefs w' = Fixtures.stored_prefs.
Proof.
  split; [lia|].
  destruct (proj1 (OnGetAccessToken_reports_parsed_token
                     (H := Fixtures.locked_host) (H0 := Fixtures.parser)
                     (fun s => recording (AccessToken s)) 200 "abc" ∅
                     Fixtures.connected_world))
    as (w' & Hrun & Ha & Hr & Hp); [lia|].
  exists w'. split; [exact Hrun|]. split; [exact Ha|]. split; [exact Hr|].
  apply Hp. left; reflexivity.
Defined.

Lemma OnRevokeToken_unsuccessful_keeps_tokens_witness :
  (~ (200 <= 200 <= 299) \/
   snd (RevokeTokenFromJSON (BinanceJSONParser := Fixtures.parser) "no" false)
   = false) /\
  exists w',
    OnRevokeToken (H := Fixtures.host) (H0 := Fixtures.parser)
                  (fun s => recording (TokenRevoked s)) 200 "no" ∅
                  Fixtures.connected_world
    = recording (TokenRevoked false) w' /\
    self w' = Fixtures.connected_service /\ prefs w' = Fixtures.stored_prefs.
Proof.
  split; [right; reflexivity|].
  apply (OnRevokeToken_unsuccessful_keeps_tokens
           (H := Fixtures.host) (H0 := Fixtures.parser)
           (fun s => recording (TokenRevoked s)) 200 "no" ∅
           Fixtures.connected_world).
  right; reflexivity.
Defined.

Lemma rest_handler_2xx_delivers_parsed_witness :
  200 <= 204 <= 299 /\
  exists before,
    trace (snd (complete (H := Fixtures.host) (H0 := Fixtures.parser)
                         DepositInfoHandler 204 "addr" ∅ Fixtures.connected_world))
    = before ++ [CallbackRun (DepositInfo "addr" "addr" true)].
Proof.
  split; [lia|].
  apply (proj1 (rest_handler_2xx_delivers_parsed
                  (H := Fixtures.host) (H0 := Fixtures.parser)
                  DepositInfoHandler 204 "addr" ∅ Fixtures.connected_world
                  ltac:(lia))).
Defined.

End HandlerFacts.


(** ** The shape of a code challenge *)

Module CodeChallengeShape.
Import Bytes CodeChallenge CodeChallengeFacts Alphabet.

(** *** The digest has 32 bytes *)

Lemma round_length (v : list Z) (kw : Z * Z) :
  length (SHA256.round v kw) = length v.
Proof.
  unfold SHA256.round.
  destruct v as [|a [|b [|c [|d [|e [|f [|g [|h [|i v]]]]]]]]]; reflexivity.
Qed.

Lemma rounds_length (kws : list (Z * Z)) (v : list Z) :
  length (fold_left SHA256.round kws v) = length v.
Proof.
  revert v. induction kws as [|kw kws IH]; intros v; [reflexivity|].
  cbn [fold_left]. rewrite IH. apply round_length.
Qed.

Lemma compress_length (Hs block : list Z) :
  length (SHA256.compress Hs block) = length Hs.
Proof.
  unfold SHA256.compress.
  rewrite length_map, length_combine, rounds_length. lia.
Qed.

Lemma compress_all_length (blocks : list (list Z)) (Hs : list Z) :
  length (fold_left SHA256.compress blocks Hs) = length Hs.
Proof.
  revert Hs. induction blocks as [|b blocks IH]; intros Hs; [reflexivity|].
  cbn [fold_left]. rewrite IH. apply compress_length.
Qed.

Lemma concat_be_bytes_length (Hs : list Z) :
  length (concat (map (be_bytes 4) Hs)) = (4 * length Hs)%nat.
Proof.
  induction Hs as [|x Hs IH]; [reflexivity|].
  cbn [map concat]. rewrite length_app, IH. cbn. lia.
Qed.

Lemma digest_length (msg : list Z) : length (SHA256.digest msg) = 32%nat.
Proof.
  unfold SHA256.digest. rewrite concat_be_bytes_length, compress_all_length.
  reflexivity.
Qed.

Lemma SHA256HashString_length (str : string) :
  length (of_string (SHA256.SHA256HashString str)) = 32%nat.
Proof.
  unfold SHA256.SHA256HashString, of_string, to_string.
  rewrite list_ascii_of_string_of_list_ascii, !length_map.
  apply digest_length.
Qed.

(** *** The characters of the encoding *)

Lemma byte_of_ascii_in_all_bytes (c : ascii) : In (byte_of_ascii c) all_bytes.
Proof.
  unfold all_bytes, byte_of_ascii.
  pose proof (N_ascii_bounded c) as Hlt.
  apply in_map_iff. exists (N.to_nat (N_of_ascii c)). split.
  - rewrite <- N_nat_Z. reflexivity.
  - apply in_seq. lia.
Qed.

Lemma sextets_ok_all :
  forallb (fun a => forallb (sextets_ok a) all_bytes) all_bytes = true.
Proof. vm_compute. reflexivity. Qed.

Lemma sextets_ok_bytes (a b : ascii) :
  sextets_ok (byte_of_ascii a) (byte_of_ascii b) = true.
Proof.
  pose proof sextets_ok_all as Hall.
  rewrite forallb_forall in Hall.
  specialize (Hall _ (byte_of_ascii_in_all_bytes a)).
  rewrite forallb_forall in Hall.
  exact (Hall _ (byte_of_ascii_in_all_bytes b)).
Qed.

Lemma sextets_ok_parts (a b : ascii) (i : Z) :
  In i [Z.shiftr (byte_of_ascii a) 2;
        Z.shiftl (Z.land (byte_of_ascii a) 3) 4;
        Z.lor (Z.shiftl (Z.land (byte_of_ascii a) 3) 4)
              (Z.shiftr (byte_of_ascii b) 4);
        Z.shiftl (Z.land (byte_of_ascii b) 15) 2;
        Z.lor (Z.shiftl (Z.land (byte_of_ascii a) 15) 2)
              (Z.shiftr (byte_of_ascii b) 6);
        Z.land (byte_of_ascii b) 63] ->
  is_base64url_char (url_safe (Base64.sextet i)) = true.
Proof.
  intros Hin. pose proof (sextets_ok_bytes a b) as Hok.
  unfold sextets_ok in Hok. rewrite forallb_forall in Hok.
  specialize (Hok i Hin). apply andb_true_iff in Hok. apply Hok.
Qed.

Lemma list_ind3 {A} (P : list A -> Prop) :
  P [] -> (forall a, P [a]) -> (forall a b, P [a; b]) ->
  (forall a b c t, P t -> P (a :: b :: c :: t)) ->
  forall l, P l.
Proof.
  intros H0 H1 H2 H3 l.
  enough (P l /\ (forall a, P (a :: l)) /\ (forall a b, P (a :: b :: l)))
    as [Hl _] by exact Hl.
  induction l as [|x l (IH0 & IH1 & IH2)].
  - split; [exact H0|]. split; [exact H1|exact H2].
  - split; [apply IH1|]. split; [intros a; apply IH2|].
    intros a b. apply H3, IH0.
Qed.

(** The encoding of a byte string is a run of base64 characters, each of
    which [url_safe] maps into base64url, followed by at most two [=]; the
    run has four characters for every three bytes, rounded up. *)
Lemma encode_shape (cs : list ascii) :
  exists body pads,
    Base64.encode (map byte_of_ascii cs) = body ++ pads /\
    forallb (fun c => is_base64url_char (url_safe c)) body = true /\
    Forall (eq Base64.pad_char) pads /\
    (4 * length cs <= 3 * length body <= 4 * length cs + 2)%nat.
Proof.
  induction cs as [|a|a b|a b c t (body & pads & Henc & Hbody & Hpads & Hlen)]
    using list_ind3.
  - exists [], []. repeat split; try constructor; cbn; lia.
  - exists [Base64.sextet (Z.shiftr (byte_of_ascii a) 2);
            Base64.sextet (Z.shiftl (Z.land (byte_of_ascii a) 3) 4)],
      [Base64.pad_char; Base64.pad_char].
    split; [reflexivity|]. split; [|split; [repeat constructor|cbn; lia]].
    cbn [forallb].
    rewrite !(sextets_ok_parts a a) by (cbn; tauto). reflexivity.
  - exists [Base64.sextet (Z.shiftr (byte_of_ascii a) 2);
            Base64.sextet (Z.lor (Z.shiftl (Z.land (byte_of_ascii a) 3) 4)
                                 (Z.shiftr (byte_of_ascii b) 4));
            Base64.sextet (Z.shiftl (Z.land (byte_of_ascii b) 15) 2)],
      [Base64.pad_char].
    split; [reflexivity|]. split; [|split; [repeat constructor|cbn; lia]].
    cbn [forallb].
    rewrite !(sextets_ok_parts a b) by (cbn; tauto). reflexivity.
  - exists (Base64.sextet (Z.shiftr (byte_of_ascii a) 2)
            :: Base64.sextet (Z.lor (Z.shiftl (Z.land (byte_of_ascii a) 3) 4)
                                    (Z.shiftr (byte_of_ascii b) 4))
            :: Base64.sextet (Z.lor (Z.shiftl (Z.land (byte_of_ascii b) 15) 2)
                                    (Z.shiftr (byte_of_ascii c) 6))
            :: Base64.sextet (Z.land (byte_of_ascii c) 63)
            :: body), pads.
    split; [cbn [map Base64.encode]; rewrite Henc; reflexivity|].
    split; [|split; [exact Hpads|cbn [length]; lia]].
    cbn [forallb]. rewrite Hbody.
    rewrite !(sextets_ok_parts a b) by (cbn; tauto).
    rewrite !(sextets_ok_parts b c) by (cbn; tauto). reflexivity.
Qed.

(** *** Stripping the padding *)

Lemma is_base64url_char_not_pad (c : ascii) :
  is_base64url_char c = true -> Ascii.eqb c "="%char = false.
Proof.
  destruct (Ascii.eqb_spec c "="%char) as [->|]; [discriminate|reflexivity].
Qed.

Lemma strip_trailing_padding_clean (body : list ascii) :
  forallb is_base64url_char body = true ->
  strip_trailing_padding body = body.
Proof.
  induction body as [|c body IH]; [reflexivity|].
  cbn [forallb]. intros Hall. apply andb_true_iff in Hall as [Hc Hbody].
  cbn [strip_trailing_padding]. rewrite (IH Hbody).
  rewrite (is_base64url_char_not_pad c Hc). destruct body; reflexivity.
Qed.

Lemma strip_trailing_padding_pads (body pads : list ascii) :
  Forall (eq Base64.pad_char) pads ->
  strip_trailing_padding (body ++ pads) = strip_trailing_padding body.
Proof.
  induction pads as [|p pads IH] using rev_ind; intros Hpads.
  - rewrite app_nil_r. reflexivity.
  - apply Forall_app in Hpads as [Hpads Hp].
    rewrite app_assoc, strip_trailing_padding_snoc.
    inversion Hp as [|? ? <- _]. cbn [Base64.pad_char Ascii.eqb]. cbn.
    apply IH, Hpads.
Qed.

Lemma url_safe_pads (pads : list ascii) :
  Forall (eq Base64.pad_char) pads -> map url_safe pads = pads.
Proof.
  induction 1 as [|p pads <- _ IH]; [reflexivity|].
  cbn [map]. rewrite IH. reflexivity.
Qed.

Lemma length_string_of_list_ascii (l : list ascii) :
  String.length (string_of_list_ascii l) = length l.
Proof.
  induction l as [|c l IH]; [reflexivity|]. cbn. rewrite IH. reflexivity.
Qed.

(** X8. For every verifier, the code challenge has exactly 43 characters,
    all of them letters, digits, [-] or [_]: no [+], no [/] and no [=]
    survives. *)
Theorem GetCodeChallenge_shape (code_verifier : string) :
  String.length (GetCodeChallenge code_verifier) = 43%nat /\
  forallb is_base64url_char
          (list_ascii_of_string (GetCodeChallenge code_verifier)) = true.
Proof.
  unfold GetCodeChallenge.
  rewrite replace_twice_url_safe, erase_trailing_equals.
  unfold Base64.Base64Encode. rewrite list_ascii_of_string_of_list_ascii.
  pose proof (SHA256HashString_length code_verifier) as Hraw.
  unfold of_string in *.
  destruct (encode_shape
              (list_ascii_of_string (SHA256.SHA256HashString code_verifier)))
    as (body & pads & -> & Hbody & Hpads & Hlen).
  rewrite length_map in Hraw. rewrite Hraw in Hlen.
  rewrite map_app, (url_safe_pads pads Hpads).
  rewrite strip_trailing_padding_pads by exact Hpads.
  assert (Hsafe : forallb is_base64url_char (map url_safe body) = true).
  { clear -Hbody. induction body as [|c body IH]; [reflexivity|].
    cbn [forallb map] in *. apply andb_true_iff in Hbody as [Hc Hbody].
    rewrite Hc, (IH Hbody). reflexivity. }
  rewrite (strip_trailing_padding_clean _ Hsafe).
  rewrite length_string_of_list_ascii, list_ascii_of_string_of_list_ascii,
    length_map.
  split; [lia|exact Hsafe].
Qed.

End CodeChallengeShape.


(** ** More on the publisher-info table *)

Module TableFacts.
Import Database DatabaseViews DatabaseFacts.

Section WithLedger.
Context {PublisherBanner : Type} `{Ledger PublisherBanner}.

Abbreviation Info := (ServerPublisherInfo PublisherBanner).
Abbreviation Trace := (list (Event PublisherBanner)).

(** X9. The migration to version 7 succeeds exactly when the drop, the
    index creation and the banner migration succeed, each on the transaction
    its predecessor left; creating the table cannot fail.  When the drop
    fails nothing else is attempted: the transaction is what the drop left,
    with no create-table command added. *)
Theorem Migrate_7_success_iff (t : DBTransaction) :
  (fst (Migrate (Some t) 7) = true <->
   fst (DropTable table_name_ t) = true /\
   fst (InsertIndex table_name_ "publisher_key"
          (push_back (snd (DropTable table_name_ t)) create_table_command))
   = true /\
   fst (banner_Migrate 7
          (snd (InsertIndex table_name_ "publisher_key"
                  (push_back (snd (DropTable table_name_ t))
                             create_table_command))))
   = true) /\
  (fst (DropTable table_name_ t) = false ->
   Migrate (Some t) 7 = (false, Some (snd (DropTable table_name_ t)))).
Proof.
  unfold Migrate. cbn [Z.eqb Pos.eqb]. rewrite MigrateToV7_steps.
  cbn [until_first_failure]. unfold CreateIndexV7.
  destruct (DropTable table_name_ t) as [[] t1]; cbn [fst snd].
  - rewrite CreateTableV7_appends.
    destruct (InsertIndex table_name_ "publisher_key" _) as [[] t3];
      cbn [fst snd].
    + destruct (banner_Migrate 7 t3) as [[] t4]; cbn [fst snd ret].
      * split; [|discriminate]. split; [intros _; repeat split|reflexivity].
      * split; [|discriminate].
        split; [discriminate|intros (_ & _ & E); discriminate E].
    + split; [|discriminate].
      split; [discriminate|intros (_ & E & _); discriminate E].
  - split; [|reflexivity].
    split; [discriminate|intros (E & _); discriminate E].
Qed.

(** What [ClearAndInsertList] does, for any callback. *)
Lemma ClearAndInsertList_run (infos : list (option Info))
    (callback : Result -> Trace) :
  ClearAndInsertList infos callback
  = TransactionRun (replace_all_transaction infos)
    :: callback (outcome_of (respond (replace_all_transaction infos))).
Proof.
  unfold ClearAndInsertList. cbv zeta.
  change (push_back DBTransaction_New _) with (mkTransaction [delete_all_command]).
  destruct infos as [|info rest].
  - cbn [length Nat.eqb]. unfold RunDBTransaction.
    rewrite OnResultCallback_outcome. reflexivity.
  - cbn [length Nat.eqb]. rewrite insert_loop. unfold RunDBTransaction.
    rewrite OnResultCallback_outcome. reflexivity.
Qed.

Lemma commands_of_present (infos : list (option Info)) :
  flat_map commands_of (present infos) = flat_map commands_of infos.
Proof.
  induction infos as [|[i|] infos IH]; [reflexivity| |exact IH].
  unfold present in *. cbn [List.filter flat_map]. rewrite IH. reflexivity.
Qed.

(** X10. The one transaction [ClearAndInsertList] submits skips the null
    entries of the list: its commands are the delete followed by the commands
    of the non-null entries in list order, so the upsert of every non-null
    record is among them, and a list of null entries alone gives the delete
    only, as the empty list does.  On a list followed by a second list, the
    submitted commands are those submitted for the first list followed by
    the commands of the entries of the second. *)
Theorem ClearAndInsertList_skips_null
    (infos more : list (option Info)) (callback : Result -> Trace) :
  exists t t',
    ClearAndInsertList infos callback
    = TransactionRun t :: callback (outcome_of (respond t)) /\
    ClearAndInsertList (infos ++ more) callback
    = TransactionRun t' :: callback (outcome_of (respond t')) /\
    commands t = delete_all_command :: flat_map commands_of (present infos) /\
    commands t' = commands t ++ flat_map commands_of more /\
    (forall i, In (Some i) infos -> In (upsert_command i) (commands t)) /\
    (present infos = [] -> commands t = [delete_all_command]) /\
    ClearAndInsertList infos callback
    = ClearAndInsertList (present infos) callback.
Proof.
  exists (replace_all_transaction infos), (replace_all_transaction (infos ++ more)).
  assert (Hsame : replace_all_transaction (present infos)
                  = replace_all_transaction infos).
  { unfold replace_all_transaction. rewrite commands_of_present. reflexivity. }
  split; [apply ClearAndInsertList_run|].
  split; [apply ClearAndInsertList_run|].
  unfold replace_all_transaction. cbn [commands].
  split; [rewrite commands_of_present; reflexivity|].
  split; [rewrite flat_map_app; reflexivity|].
  split; [|split].
  - intros i Hin. right. apply in_flat_map. exists (Some i).
    split; [exact Hin|]. left; reflexivity.
  - intros Hnone. rewrite <- commands_of_present, Hnone. reflexivity.
  - rewrite !ClearAndInsertList_run, Hsame. reflexivity.
Qed.

(** X11. A lookup asks the banner table once and runs one select.  It then
    runs the callback exactly once, unless the response is OK without a set
    of rows: only then the rows are read through a null or wrong-variant
    result and the callback is never run. *)
Theorem GetRecord_delivers_once (key : string) :
  (forall r,
      respond (select_transaction key) = Some r ->
      response_status r = RESPONSE_OK ->
      has_rows r = false ->
      GetRecord key record_info
      = [BannerRequested key; TransactionRun (select_transaction key);
         InvalidAccess]) /\
  ((forall r,
       respond (select_transaction key) = Some r ->
       response_status r = RESPONSE_OK ->
       has_rows r = true) ->
   exists info,
     GetRecord key record_info
     = [BannerRequested key; TransactionRun (select_transaction key);
        InfoDelivered info]).
Proof.
  rewrite GetRecord_unfold. unfold OnGetRecord, has_rows, record_info.
  split.
  - intros r -> Hok Hrows. rewrite Hok. cbn [status_is_OK negb].
    destruct (result r) as [[rows|v]|]; [discriminate Hrows|reflexivity..].
  - intros Hrows.
    destruct (respond (select_transaction key)) as [r|];
      [|eexists; reflexivity].
    destruct (status_is_OK (response_status r)) eqn:Hok; cbn [negb];
      [|eexists; reflexivity].
    specialize (Hrows r eq_refl (status_is_OK_true _ Hok)).
    destruct (result r) as [[rows|v]|]; try discriminate Hrows.
    destruct rows as [|row [|row' rows]]; cbn [length Nat.eqb negb];
      eexists; reflexivity.
Qed.

End WithLedger.

Lemma Migrate_7_success_iff_witness :
  fst (DropTable (Ledger := Fixtures.ledger) table_name_ DBTransaction_New) = true /\
  fst (Migrate (H := Fixtures.ledger) (Some DBTransaction_New) 7) = true.
Proof.
  split; [reflexivity|].
  apply (proj2 (proj1 (Migrate_7_success_iff
                         (H := Fixtures.ledger) DBTransaction_New))).
  repeat split.
Defined.

Lemma ClearAndInsertList_skips_null_witness :
  present (A := ServerPublisherInfo string) [None; None] = [] /\
  In (Some (mkServerPublisherInfo "a.com" 2 false "addr" None))
     [None; Some (mkServerPublisherInfo "a.com" 2 false "addr" (@None string))] /\
  exists t,
    ClearAndInsertList (H := Fixtures.ledger) [None; None] record_result
    = [TransactionRun t; ResultDelivered LEDGER_OK] /\
    commands t = [delete_all_command] /\
  exists u,
    ClearAndInsertList
      (H := Fixtures.ledger)
      [None; Some (mkServerPublisherInfo "a.com" 2 false "addr" None)]
      record_result
    = [TransactionRun u; ResultDelivered LEDGER_OK] /\
    In (upsert_command (mkServerPublisherInfo "a.com" 2 false "addr" (@None string)))
       (commands u).
Proof.
  split; [reflexivity|]. split; [right; left; reflexivity|].
  destruct (ClearAndInsertList_skips_null
              (H := Fixtures.ledger) [None; None] [] record_result)
    as (t & _ & Hrun & _ & _ & _ & _ & Hnull & _).
  exists t. split; [exact Hrun|]. split; [apply Hnull; reflexivity|].
  destruct (ClearAndInsertList_skips_null
              (H := Fixtures.ledger)
              [None; Some (mkServerPublisherInfo "a.com" 2 false "addr" None)]
              [] record_result)
    as (u & _ & Hrun' & _ & _ & _ & Hin & _).
  exists u. split; [exact Hrun'|]. apply Hin. right; left; reflexivity.
Defined.

Lemma GetRecord_delivers_once_witness :
  respond (Ledger := Fixtures.ledger_answering
                       (Some (mkResponse RESPONSE_OK None)))
          (select_transaction "brave.com")
  = Some (mkResponse RESPONSE_OK None) /\
  response_status (mkResponse RESPONSE_OK None) = RESPONSE_OK /\
  has_rows (mkResponse RESPONSE_OK None) = false /\
  GetRecord (H := Fixtures.ledger_answering (Some (mkResponse RESPONSE_OK None)))
            "brave.com" record_info
  = [BannerRequested "brave.com";
     TransactionRun (select_transaction "brave.com");
     InvalidAccess].
Proof.
  repeat (split; [reflexivity|]).
  apply (proj1 (GetRecord_delivers_once
                  (H := Fixtures.ledger_answering
                          (Some (mkResponse RESPONSE_OK None)))
                  "brave.com")
           (mkResponse RESPONSE_OK None));
    reflexivity.
Defined.

End TableFacts.


(** ** Requests, pending loaders and their completion *)

Module RequestFacts.
Import Binance BinanceSession BinanceRequests BinanceFacts.

(** *** The list of pending loaders *)

Lemma loader_at_In (iter : nat) (l : list (nat * SimpleURLLoader)) :
  In iter (map fst l) <-> exists loader, loader_at iter l = Some loader.
Proof.
  induction l as [|[h loader] l IH]; cbn [map fst loader_at In].
  - split; [intros []|intros [? E]; discriminate E].
  - destruct (Nat.eqb_spec h iter) as [->|Hne].
    + split; [intros _; eexists; reflexivity|intros _; left; reflexivity].
    + rewrite <- IH. split; [intros [E|Hin]; [contradiction|exact Hin]|].
      intros Hin; right; exact Hin.
Qed.

Lemma filter_other_id (iter : nat) (hs : list nat) :
  ~ In iter hs -> List.filter (fun h => negb (Nat.eqb h iter)) hs = hs.
Proof.
  induction hs as [|h hs IH]; [reflexivity|]. cbn [In List.filter].
  intros Hnot. destruct (Nat.eqb_spec h iter) as [->|_]; cbn [negb].
  - exfalso. apply Hnot. left; reflexivity.
  - rewrite IH; [reflexivity|]. intros Hin. apply Hnot. right; exact Hin.
Qed.

Lemma erase_handles (iter : nat) (l : list (nat * SimpleURLLoader)) :
  NoDup (map fst l) ->
  map fst (erase iter l)
  = List.filter (fun h => negb (Nat.eqb h iter)) (map fst l).
Proof.
  induction l as [|[h loader] l IH]; [reflexivity|].
  cbn [map fst erase List.filter]. intros Hnodup.
  inversion Hnodup as [|? ? Hnot Hrest]; subst.
  destruct (Nat.eqb_spec h iter) as [->|_]; cbn [negb map fst].
  - symmetry. apply filter_other_id. rewrite <- list_elem_of_In. exact Hnot.
  - rewrite (IH Hrest). reflexivity.
Qed.

Lemma loader_at_erase_other (iter h : nat) (l : list (nat * SimpleURLLoader)) :
  h <> iter -> loader_at h (erase iter l) = loader_at h l.
Proof.
  intros Hne. induction l as [|[h' loader] l IH]; [reflexivity|].
  cbn [erase loader_at].
  destruct (Nat.eqb_spec h' iter) as [->|_].
  - destruct (Nat.eqb_spec iter h) as [E|_]; [congruence|reflexivity].
  - cbn [loader_at]. rewrite IH. reflexivity.
Qed.

Lemma land_lor_absorb (a b : Z) : Z.land (Z.lor a b) a = a.
Proof.
  apply Z.bits_inj'. intros n _.
  rewrite Z.land_spec, Z.lor_spec.
  destruct (Z.testbit a n), (Z.testbit b n); reflexivity.
Qed.

Lemma land_lor_keep (a b f : Z) : Z.land a f = f -> Z.land (Z.lor a b) f = f.
Proof.
  intros Hf. apply Z.bits_inj'. intros n _.
  rewrite Z.land_spec, Z.lor_spec.
  apply (f_equal (fun x => Z.testbit x n)) in Hf. rewrite Z.land_spec in Hf.
  destruct (Z.testbit a n), (Z.testbit f n), (Z.testbit b n);
    cbn in *; congruence.
Qed.

Section WithNetwork.
Context `{Host} `{BinanceJSONParser} `{Network}.

(** X12. [OAuthRequest] always returns [true], touches neither the token
    store nor the loaders already pending, and puts one new loader at the
    front of the list under a handle no loader has had.  The request has the
    given URL and method and all four of the no-cookie and no-cache load
    flags set, whatever their values; it retries once on a network change;
    a body is attached exactly when the post data is not empty. *)
Theorem OAuthRequest_adds_one_loader
    (url : GURL) (method post_data : string) (callback : URLRequestCallback)
    (s : Session) :
  fst (OAuthRequest url method post_data callback s) = true /\
  world (snd (OAuthRequest url method post_data callback s)) = world s /\
  (exists loader,
      url_loaders_ (snd (OAuthRequest url method post_data callback s))
      = (allocated s, loader) :: url_loaders_ s /\
      request_url (request loader) = url /\
      BinanceRequests.method (request loader) = method /\
      (upload loader = None <-> post_data = "") /\
      (post_data <> "" ->
       upload loader = Some (post_data, "application/x-www-form-urlencoded")) /\
      Forall (fun flag => Z.land (load_flags (request loader)) flag = flag)
             [LOAD_DO_NOT_SEND_COOKIES; LOAD_DO_NOT_SAVE_COOKIES;
              LOAD_BYPASS_CACHE; LOAD_DISABLE_CACHE] /\
      retry_options loader = Some (1, RETRY_ON_NETWORK_CHANGE)) /\
  (well_tracked s ->
   well_tracked (snd (OAuthRequest url method post_data callback s))).
Proof.
  unfold OAuthRequest. cbn [fst snd world url_loaders_ with_loaders].
  split; [reflexivity|]. split; [reflexivity|]. split.
  - eexists. split; [reflexivity|].
    cbn [request upload retry_options request_url BinanceRequests.method
         load_flags].
    split; [reflexivity|]. split; [reflexivity|].
    destruct (String.eqb_spec post_data "") as [->|Hne].
    + split; [split; reflexivity|]. split; [intros Hne; contradiction|].
      split; [|reflexivity].
      repeat constructor;
        auto using land_lor_absorb, land_lor_keep, Z.land_diag.
      * apply land_lor_keep, land_lor_keep.
        rewrite Z.lor_comm. apply land_lor_absorb.
      * apply land_lor_keep. rewrite Z.lor_comm. apply land_lor_absorb.
      * rewrite Z.lor_comm. apply land_lor_absorb.
    + split; [split; [discriminate|intros E; contradiction]|].
      split; [reflexivity|]. split; [|reflexivity].
      repeat constructor;
        auto using land_lor_absorb, land_lor_keep, Z.land_diag.
      * apply land_lor_keep, land_lor_keep.
        rewrite Z.lor_comm. apply land_lor_absorb.
      * apply land_lor_keep. rewrite Z.lor_comm. apply land_lor_absorb.
      * rewrite Z.lor_comm. apply land_lor_absorb.
  - intros [Hnodup Hbound]. unfold well_tracked, handles in *.
    cbn [url_loaders_ allocated with_loaders map fst]. split.
    + constructor; [|exact Hnodup].
      intros Hin. apply list_elem_of_In in Hin.
      rewrite List.Forall_forall in Hbound.
      specialize (Hbound _ Hin). lia.
    + constructor; [lia|].
      eapply List.Forall_impl; [|exact Hbound]. cbn. intros h Hh. lia.
Qed.

(** What the callback of a completion is run with: [-1] and no headers
    unless the loader has response information with headers. *)
Lemma OnURLLoaderComplete_unfold (iter : nat) (callback : URLRequestCallback)
    (response_body : option string) (s : Session) (loader : SimpleURLLoader) :
  loader_at iter (url_loaders_ s) = Some loader ->
  OnURLLoaderComplete iter callback response_body s
  = Some (on_world
            (callback
               (match ResponseInfo loader with
                | Some (mkURLResponseHead (Some hs)) => response_code hs
                | _ => -1
                end)
               (default "" response_body)
               (match ResponseInfo loader with
                | Some (mkURLResponseHead (Some hs)) =>
                    collect_headers (header_lines hs)
                | _ => ∅
                end))
            (with_loaders (erase iter (url_loaders_ s)) (allocated s) s)).
Proof.
  intros Hat. unfold OnURLLoaderComplete. rewrite Hat.
  destruct (ResponseInfo loader) as [[[hs|]]|]; reflexivity.
Qed.

Lemma on_world_loaders {A} (m : M A) (s : Session) :
  url_loaders_ (snd (on_world m s)) = url_loaders_ s /\
  allocated (snd (on_world m s)) = allocated s /\
  world (snd (on_world m s)) = snd (m (world s)).
Proof.
  unfold on_world. destruct (m (world s)) as [a w]. repeat split.
Qed.

(** X13. On a well-tracked list, the completion of a pending loader
    succeeds and releases exactly that loader: its handle leaves the list,
    every other loader stays where it was, and the list stays well
    tracked.  A second completion of the same handle would use an iterator
    that is no longer in the list. *)
Theorem OnURLLoaderComplete_releases_once
    (iter : nat) (callback callback' : URLRequestCallback)
    (response_body response_body' : option string) (s : Session) :
  well_tracked s ->
  In iter (handles s) ->
  exists s',
    OnURLLoaderComplete iter callback response_body s = Some (tt, s') /\
    handles s' = List.filter (fun h => negb (Nat.eqb h iter)) (handles s) /\
    ~ In iter (handles s') /\
    (forall h, h <> iter ->
               loader_at h (url_loaders_ s') = loader_at h (url_loaders_ s)) /\
    well_tracked s' /\
    OnURLLoaderComplete iter callback' response_body' s' = None.
Proof.
  intros [Hnodup Hbound] Hin.
  destruct (proj1 (loader_at_In iter (url_loaders_ s)) Hin) as [loader Hat].
  rewrite (OnURLLoaderComplete_unfold _ _ _ _ _ Hat).
  set (m := callback _ _ _).
  set (s1 := with_loaders _ _ s).
  destruct (on_world_loaders m s1) as (Hl & Ha & _).
  destruct (on_world m s1) as [[] s'] eqn:Hrun. cbn [snd] in Hl, Ha.
  assert (Hhandles : handles s'
                     = List.filter (fun h => negb (Nat.eqb h iter)) (handles s)).
  { unfold handles. rewrite Hl. subst s1. cbn [url_loaders_ with_loaders].
    apply erase_handles, Hnodup. }
  assert (Hgone : ~ In iter (handles s')).
  { rewrite Hhandles. intros Hf. apply List.filter_In in Hf as [_ Hf].
    rewrite Nat.eqb_refl in Hf. discriminate Hf. }
  exists s'. split; [reflexivity|]. split; [exact Hhandles|].
  split; [exact Hgone|]. split; [|split].
  - intros h Hne. rewrite Hl. subst s1. cbn [url_loaders_ with_loaders].
    apply loader_at_erase_other, Hne.
  - unfold well_tracked. rewrite Hhandles, Ha. subst s1.
    cbn [allocated with_loaders]. split.
    + apply NoDup_ListNoDup. apply List.NoDup_filter.
      apply NoDup_ListNoDup. exact Hnodup.
    + apply List.Forall_forall. intros h Hh.
      apply List.filter_In in Hh as [Hh _].
      rewrite List.Forall_forall in Hbound. apply Hbound, Hh.
  - unfold OnURLLoaderComplete.
    destruct (loader_at iter (url_loaders_ s')) as [l|] eqn:Hat';
      [|reflexivity].
    exfalso. apply Hgone. apply loader_at_In. exists l. exact Hat'.
Qed.

(** X14. A request and its completion compose: when the network completes
    the loader [OAuthRequest] has just inserted, the list of pending loaders
    is the one before the request, and the callback given to [OAuthRequest]
    is run, on the token store as it was, with the response code of the
    headers ([-1] without response information or without headers), the
    body (the empty string without a body) and the collected headers. *)
Theorem OAuthRequest_then_completion
    (url : GURL) (method post_data : string) (callback : URLRequestCallback)
    (info : option URLResponseHead) (response_body : option string)
    (s : Session) :
  network_completes (allocated s) info response_body
                    (snd (OAuthRequest url method post_data callback s))
  = Some (on_world
            (callback
               (match info with
                | Some (mkURLResponseHead (Some hs)) => response_code hs
                | _ => -1
                end)
               (default "" response_body)
               (match info with
                | Some (mkURLResponseHead (Some hs)) =>
                    collect_headers (header_lines hs)
                | _ => ∅
                end))
            (with_loaders (url_loaders_ s) (S (allocated s)) s)).
Proof.
  unfold network_completes, OAuthRequest.
  cbn [snd url_loaders_ allocated with_loaders loader_at respond_to
       bound_callback world client_id_ oauth_host_ api_host_].
  rewrite Nat.eqb_refl.
  cbn [bound_callback request upload retry_options].
  erewrite OnURLLoaderComplete_unfold;
    [|cbn [url_loaders_ with_loaders loader_at]; rewrite Nat.eqb_refl;
      reflexivity].
  cbn [ResponseInfo url_loaders_ allocated with_loaders erase world client_id_
       oauth_host_ api_host_].
  rewrite Nat.eqb_refl. reflexivity.
Qed.

(** The handler a request binds, with a recording callback, is [complete]
    of its handler. *)
Lemma issue_is_request (r : RestRequest) (s : Session) :
  exists url method,
    issue r s = OAuthRequest url method "" (complete (handler_of r)) s.
Proof.
  destruct r; eexists _, _; reflexivity.
Qed.

(** X15. When the network gives no response to a REST request (no
    response information, or none with headers), the request's callback is
    run once with the handler's defaults, the token store is left alone, and
    the loader is released: the pending list is what it was before the
    request. *)
Theorem request_without_response_delivers_defaults
    (r : RestRequest) (info : option URLResponseHead)
    (response_body : option string) (s : Session) :
  info = None \/ info = Some (mkURLResponseHead None) ->
  exists s',
    network_completes (allocated s) info response_body (snd (issue r s))
    = Some (tt, s') /\
    url_loaders_ s' = url_loaders_ s /\
    self (world s') = self (world s) /\
    prefs (world s') = prefs (world s) /\
    trace (world s') = trace (world s) ++ [CallbackRun (defaults (handler_of r))].
Proof.
  intros Hnone. destruct (issue_is_request r s) as (url & method & ->).
  unfold network_completes, OAuthRequest.
  cbn [snd url_loaders_ allocated with_loaders loader_at respond_to].
  rewrite Nat.eqb_refl. cbn [bound_callback].
  erewrite OnURLLoaderComplete_unfold;
    [|cbn [url_loaders_ with_loaders loader_at]; rewrite Nat.eqb_refl;
      reflexivity].
  cbn [ResponseInfo url_loaders_ allocated with_loaders erase].
  rewrite Nat.eqb_refl.
  assert (Hcode : (match info with
                   | Some (mkURLResponseHead (Some hs)) => response_code hs
                   | _ => -1
                   end) = -1) by (destruct Hnone as [->| ->]; reflexivity).
  rewrite Hcode. unfold on_world. cbn [world with_loaders].
  rewrite complete_non_2xx by lia.
  eexists. split; [reflexivity|]. repeat split.
Qed.

(** *** Headers *)

Lemma collect_headers_snoc (lines : list (string * string)) (line : string * string) :
  collect_headers (lines ++ [line])
  = <[ToLowerASCII (fst line) := snd line]> (collect_headers lines).
Proof.
  unfold collect_headers. rewrite fold_left_app. reflexivity.
Qed.

(** X16. The headers handed to a callback are keyed by the lower-cased
    header names.  A later line replaces an earlier one whose name has the
    same lower-case form and leaves every other entry alone; every entry
    comes from a line with that lower-cased name and that value. *)
Theorem collect_headers_lower_case_last_wins
    (lines : list (string * string)) (key value : string) :
  collect_headers (lines ++ [(key, value)]) !! ToLowerASCII key = Some value /\
  (forall k, k <> ToLowerASCII key ->
             collect_headers (lines ++ [(key, value)]) !! k
             = collect_headers lines !! k) /\
  (forall k v, collect_headers lines !! k = Some v ->
               exists name, In (name, v) lines /\ ToLowerASCII name = k).
Proof.
  rewrite collect_headers_snoc. cbn [fst snd].
  split; [apply lookup_insert_eq|]. split.
  - intros k Hne. apply lookup_insert_ne. congruence.
  - clear key value. induction lines as [|[name v'] lines IH] using rev_ind.
    + intros k v Hk. unfold collect_headers in Hk. cbn in Hk.
      rewrite lookup_empty in Hk. discriminate Hk.
    + intros k v. rewrite collect_headers_snoc. cbn [fst snd].
      destruct (decide (ToLowerASCII name = k)) as [<-|Hne].
      * rewrite lookup_insert_eq. intros [= <-].
        exists name. split; [apply in_or_app; right; left; reflexivity|].
        reflexivity.
      * rewrite lookup_insert_ne by exact Hne. intros Hk.
        destruct (IH k v Hk) as (name' & Hin & Hlow).
        exists name'. split; [apply in_or_app; left; exact Hin|exact Hlow].
Qed.

(** *** The token exchange *)

(** The form [GetAccessToken] posts. *)
Lemma GetAccessToken_unfold (callback : bool -> M unit) (s : Session) :
  GetAccessToken callback s
  = OAuthRequest
      (GetURLWithPath (oauth_host_ s) oauth_path_access_token) "POST"
      (GURL_query
         (mkGURL ("https://" +:+ oauth_host_ s) oauth_path_access_token
                 [("grant_type", "authorization_code");
                  ("code", auth_token_ (self (world s)));
                  ("client_id", client_id_ s);
                  ("code_verifier", code_verifier_ (self (world s)));
                  ("redirect_uri", oauth_callback)]))
      (OnGetAccessToken callback)
      (with_world
         (mkWorld (mkBinanceService "" (access_token_ (self (world s)))
                                    (refresh_token_ (self (world s)))
                                    (code_challenge_ (self (world s)))
                                    (code_verifier_ (self (world s))))
                  (prefs (world s)) (trace (world s)))
         s).
Proof. reflexivity. Qed.

(** X17. [GetAccessToken] always returns [true] and empties [auth_token_],
    so the authorization code is sent once: a second call sends an empty
    code.  The two tokens, the challenge, the verifier, the preferences and
    the trace are left as they were.  The code, the client id and the
    verifier travel in the posted form, not in the URL: the request goes to
    the token path of the OAuth host without any query parameter. *)
Theorem GetAccessToken_sends_code_once
    (callback : bool -> M unit) (s : Session) :
  fst (GetAccessToken callback s) = true /\
  auth_token_ (self (world (snd (GetAccessToken callback s)))) = "" /\
  access_token_ (self (world (snd (GetAccessToken callback s))))
  = access_token_ (self (world s)) /\
  refresh_token_ (self (world (snd (GetAccessToken callback s))))
  = refresh_token_ (self (world s)) /\
  code_challenge_ (self (world (snd (GetAccessToken callback s))))
  = code_challenge_ (self (world s)) /\
  code_verifier_ (self (world (snd (GetAccessToken callback s))))
  = code_verifier_ (self (world s)) /\
  prefs (world (snd (GetAccessToken callback s))) = prefs (world s) /\
  trace (world (snd (GetAccessToken callback s))) = trace (world s) /\
  exists loader form,
    url_loaders_ (snd (GetAccessToken callback s))
    = (allocated s, loader) :: url_loaders_ s /\
    BinanceRequests.method (request loader) = "POST" /\
    origin (request_url (request loader)) = "https://" +:+ oauth_host_ s /\
    path (request_url (request loader)) = oauth_path_access_token /\
    query_parameters (request_url (request loader)) = [] /\
    upload loader
    = (if String.eqb (GURL_query form) "" then None
       else Some (GURL_query form, "application/x-www-form-urlencoded")) /\
    query_parameter "grant_type" form = Some "authorization_code" /\
    query_parameter "code" form = Some (auth_token_ (self (world s))) /\
    query_parameter "client_id" form = Some (client_id_ s) /\
    query_parameter "code_verifier" form
    = Some (code_verifier_ (self (world s))) /\
    query_parameter "redirect_uri" form = Some oauth_callback.
Proof.
  rewrite GetAccessToken_unfold. unfold OAuthRequest.
  cbn [fst snd world with_world with_loaders self prefs trace auth_token_
       access_token_ refresh_token_ code_challenge_ code_verifier_
       url_loaders_ allocated].
  repeat (split; [reflexivity|]).
  eexists _, _. repeat split.
Qed.

(** X18. The challenge in the URL [GetOAuthClientUrl] returns is the code
    challenge of the verifier that the following [GetAccessToken] posts,
    with the method [S256]; the authorization code set in between is the
    posted code. *)
Theorem PKCE_challenge_matches_posted_verifier
    (random_seed code : string) (callback : bool -> M unit) (s : Session) :
  exists authorization_url form loader,
    fst (GetOAuthClientUrl random_seed s) = GURL_spec authorization_url /\
    url_loaders_
      (snd (GetAccessToken callback
              (snd (SetAuthToken code (snd (GetOAuthClientUrl random_seed s))))))
    = (allocated s, loader) :: url_loaders_ s /\
    upload loader
    = (if String.eqb (GURL_query form) "" then None
       else Some (GURL_query form, "application/x-www-form-urlencoded")) /\
    query_parameter "code_verifier" form = Some (HexEncode random_seed) /\
    query_parameter "code" form = Some code /\
    query_parameter "code_challenge" authorization_url
    = Some (CodeChallenge.GetCodeChallenge (HexEncode random_seed)) /\
    query_parameter "code_challenge_method" authorization_url = Some "S256" /\
    query_parameter "client_id" authorization_url
    = query_parameter "client_id" form.
Proof.
  rewrite GetAccessToken_unfold.
  unfold GetOAuthClientUrl, SetAuthToken, OAuthRequest, on_world,
    set_code_verifier_, set_code_challenge_, set_auth_token_, update_self,
    GetHexEncodedCryptoRandomSeed.
  cbn [fst snd world with_world with_loaders self prefs trace auth_token_
       access_token_ refresh_token_ code_challenge_ code_verifier_
       url_loaders_ allocated client_id_ oauth_host_ api_host_].
  eexists _, _, _. repeat split.
Qed.

(** *** Where the access token goes *)

(** X19. Every REST request is sent without a body.  A ticker request is a
    GET to the public API host that carries the symbol pair and never the
    access token.  Every other REST request goes to the OAuth host with the
    access token the service holds as its [access_token] query parameter. *)
Theorem rest_request_token_placement (r : RestRequest) (s : Session) :
  fst (issue r s) = true /\
  world (snd (issue r s)) = world s /\
  exists loader,
    url_loaders_ (snd (issue r s)) = (allocated s, loader) :: url_loaders_ s /\
    upload loader = None /\
    (is_ticker r = true ->
     BinanceRequests.method (request loader) = "GET" /\
     origin (request_url (request loader)) = "https://" +:+ api_host_ s /\
     query_parameter "access_token" (request_url (request loader)) = None) /\
    (is_ticker r = false ->
     origin (request_url (request loader)) = "https://" +:+ oauth_host_ s /\
     query_parameter "access_token" (request_url (request loader))
     = Some (access_token_ (self (world s)))).
Proof.
  destruct r; cbn [issue is_ticker];
    (split; [reflexivity|]); (split; [reflexivity|]);
    eexists; (split; [reflexivity|]); (split; [reflexivity|]);
    (split; [intros E; try discriminate E; repeat split
            |intros E; try discriminate E; repeat split]).
Qed.

(** *** The hosts *)

(** X20. The test setters act on the requests that follow: the OAuth host
    moves every REST request but the ticker requests, the API host moves the
    ticker requests only, and neither moves the authorization URL, which
    stays on [https://accounts.binance.com/en/oauth/authorize]; the client id
    set for a test is the one in the authorization URL. *)
Theorem test_setters_redirect_requests
    (r : RestRequest) (host client_id random_seed : string) (s : Session) :
  (exists loader,
      url_loaders_ (snd (issue r (snd (SetOAuthHostForTest host s))))
      = (allocated s, loader) :: url_loaders_ s /\
      origin (request_url (request loader))
      = "https://" +:+ (if is_ticker r then api_host_ s else host)) /\
  (exists loader,
      url_loaders_ (snd (issue r (snd (SetAPIHostForTest host s))))
      = (allocated s, loader) :: url_loaders_ s /\
      origin (request_url (request loader))
      = "https://" +:+ (if is_ticker r then host else oauth_host_ s)) /\
  (exists authorization_url,
      fst (GetOAuthClientUrl
             random_seed
             (snd (SetClientIdForTest client_id (snd (SetOAuthHostForTest host s)))))
      = GURL_spec authorization_url /\
      origin authorization_url = "https://accounts.binance.com" /\
      path authorization_url = "/en/oauth/authorize" /\
      query_parameter "client_id" authorization_url = Some client_id).
Proof.
  split; [|split].
  - destruct r; eexists; split; reflexivity.
  - destruct r; eexists; split; reflexivity.
  - eexists. repeat split.
Qed.

(** *** From the token exchange to the next request *)

Lemma OnGetAccessToken_2xx_members (status : Z) (body : string)
    (headers : gmap string string) (w : World) :
  200 <= status <= 299 ->
  access_token_
    (self (snd (OnGetAccessToken (fun ok => recording (AccessToken ok))
                                 status body headers w)))
  = snd (GetTokensFromJSON body "" "access_token").
Proof.
  intros Hin. unfold OnGetAccessToken, bind, ret, parse.
  rewrite (inside_2xx _ Hin). unfold bind, ret, emit, recording, emit.
  cbn [self prefs trace]. rewrite SetAccessTokens_unfold.
  destruct (EncryptString _) as [ca|]; [destruct (EncryptString _) as [cr|]|];
    reflexivity.
Qed.

(** X21. After the token exchange completes with a 2xx status, the pending
    list is what it was before the exchange, and every REST request that
    carries an access token carries the one parsed from the response body,
    whether or not it could be persisted. *)
Theorem token_exchange_feeds_next_request
    (r : RestRequest) (code : Z) (lines : list (string * string))
    (body : string) (s : Session) :
  200 <= code <= 299 ->
  is_ticker r = false ->
  exists s' loader,
    network_completes
      (allocated s)
      (Some (mkURLResponseHead (Some (mkHttpResponseHeaders code lines))))
      (Some body)
      (snd (GetAccessToken (fun ok => recording (AccessToken ok)) s))
    = Some (tt, s') /\
    url_loaders_ s' = url_loaders_ s /\
    url_loaders_ (snd (issue r s')) = (allocated s', loader) :: url_loaders_ s /\
    query_parameter "access_token" (request_url (request loader))
    = Some (snd (GetTokensFromJSON body "" "access_token")).
Proof.
  intros Hin Hauth. rewrite GetAccessToken_unfold.
  unfold network_completes, OAuthRequest.
  cbn [snd url_loaders_ allocated with_loaders with_world loader_at respond_to].
  rewrite Nat.eqb_refl. cbn [bound_callback].
  erewrite OnURLLoaderComplete_unfold;
    [|cbn [url_loaders_ with_loaders loader_at]; rewrite Nat.eqb_refl;
      reflexivity].
  cbn [ResponseInfo url_loaders_ allocated with_loaders erase response_code
       header_lines].
  rewrite Nat.eqb_refl.
  match goal with
  | |- context [on_world ?m ?s0] =>
      pose proof (on_world_loaders m s0) as (Hl & Ha & Hw);
      destruct (on_world m s0) as [[] s'] eqn:Hrun
  end.
  cbn [snd] in Hl, Ha, Hw. cbn [url_loaders_ allocated world with_loaders] in Hl, Ha, Hw.
  pose proof (OnGetAccessToken_2xx_members code (default "" (Some body))
                (collect_headers lines)
                (mkWorld (mkBinanceService "" (access_token_ (self (world s)))
                                           (refresh_token_ (self (world s)))
                                           (code_challenge_ (self (world s)))
                                           (code_verifier_ (self (world s))))
                         (prefs (world s)) (trace (world s))) Hin) as Htoken.
  cbn [from_option id] in Htoken.
  assert (Haccess : access_token_ (self (world s'))
                    = snd (GetTokensFromJSON body "" "access_token")).
  { rewrite Hw. exact Htoken. }
  destruct r; try discriminate Hauth;
    eexists s', _; (split; [reflexivity|]); (split; [exact Hl|]);
    cbn [issue]; unfold GetAccountBalances, GetConvertQuote, GetDepositInfo,
      ConfirmConvert, GetConvertAssets, RevokeToken, OAuthRequest;
    cbn [snd url_loaders_ with_loaders]; rewrite Hl, Haccess;
    (split; reflexivity).
Qed.

End WithNetwork.

(** *** The statements above at concrete inputs *)

Lemma OAuthRequest_adds_one_loader_witness :
  well_tracked NetFixtures.session /\
  well_tracked
    (snd (OAuthRequest (H1 := NetFixtures.network)
            (GetURLWithPath "api.binance.com" "/api/v3/ticker/price") "GET" ""
            (complete (H := Fixtures.host) (H0 := Fixtures.parser)
                      TickerPriceHandler)
            NetFixtures.session)).
Proof.
  assert (Hstart : well_tracked NetFixtures.session)
    by (split; constructor).
  split; [exact Hstart|].
  apply (proj2 (proj2 (proj2 (OAuthRequest_adds_one_loader
                                (H1 := NetFixtures.network)
                                (GetURLWithPath "api.binance.com"
                                                "/api/v3/ticker/price")
                                "GET" ""
                                (complete (H := Fixtures.host)
                                          (H0 := Fixtures.parser)
                                          TickerPriceHandler)
                                NetFixtures.session)))).
  exact Hstart.
Defined.

Lemma OnURLLoaderComplete_releases_once_witness :
  In 0%nat (handles (snd (issue (H := Fixtures.host) (H0 := Fixtures.parser)
                                (H1 := NetFixtures.network)
                                (TickerPriceRequest "BTCUSDT")
                                NetFixtures.session))) /\
  exists s',
    OnURLLoaderComplete (H1 := NetFixtures.network) 0
      (complete (H := Fixtures.host) (H0 := Fixtures.parser) TickerPriceHandler)
      None
      (snd (issue (H := Fixtures.host) (H0 := Fixtures.parser)
                  (H1 := NetFixtures.network)
                  (TickerPriceRequest "BTCUSDT") NetFixtures.session))
    = Some (tt, s') /\
    handles s' = [].
Proof.
  split; [left; reflexivity|].
  destruct (OnURLLoaderComplete_releases_once
              (H1 := NetFixtures.network) 0
              (complete (H := Fixtures.host) (H0 := Fixtures.parser)
                        TickerPriceHandler)
              (complete (H := Fixtures.host) (H0 := Fixtures.parser)
                        TickerPriceHandler)
              None None
              (snd (issue (H := Fixtures.host) (H0 := Fixtures.parser)
                          (H1 := NetFixtures.network)
                          (TickerPriceRequest "BTCUSDT") NetFixtures.session)))
    as (s' & Hrun & Hhandles & _).
  - split; [repeat constructor; intros Hin; inversion Hin|].
    repeat constructor.
  - left; reflexivity.
  - exists s'. split; [exact Hrun|]. rewrite Hhandles. reflexivity.
Defined.

Lemma request_without_response_delivers_defaults_witness :
  (@None URLResponseHead = None \/
   @None URLResponseHead = Some (mkURLResponseHead None)) /\
  exists s',
    network_completes (H1 := NetFixtures.network) 0 None None
      (snd (issue (H := Fixtures.host) (H0 := Fixtures.parser)
                  (H1 := NetFixtures.network)
                  (DepositInfoRequest "BTC") NetFixtures.session))
    = Some (tt, s') /\
    url_loaders_ s' = [] /\
    trace (world s') = [CallbackRun (DepositInfo "" "" false)].
Proof.
  split; [left; reflexivity|].
  destruct (request_without_response_delivers_defaults
              (H := Fixtures.host) (H0 := Fixtures.parser)
              (H1 := NetFixtures.network)
              (DepositInfoRequest "BTC") None None NetFixtures.session)
    as (s' & Hrun & Hloaders & _ & _ & Htrace); [left; reflexivity|].
  exists s'. split; [exact Hrun|]. split; [exact Hloaders|exact Htrace].
Defined.

Lemma collect_headers_lower_case_last_wins_witness :
  "etag" <> ToLowerASCII (Network := NetFixtures.network) "CONTENT-TYPE" /\
  collect_headers (H1 := NetFixtures.network)
    ([("Content-Type", "text/html"); ("ETag", "1")]
       ++ [("CONTENT-TYPE", "application/json")])
    !! "content-type" = Some "application/json" /\
  collect_headers (H1 := NetFixtures.network)
    ([("Content-Type", "text/html"); ("ETag", "1")]
       ++ [("CONTENT-TYPE", "application/json")])
    !! "etag"
  = collect_headers (H1 := NetFixtures.network)
      [("Content-Type", "text/html"); ("ETag", "1")] !! "etag".
Proof.
  split; [vm_compute; discriminate|].
  split.
  - apply (proj1 (collect_headers_lower_case_last_wins
                    (H1 := NetFixtures.network)
                    [("Content-Type", "text/html"); ("ETag", "1")]
                    "CONTENT-TYPE" "application/json")).
  - apply (proj1 (proj2 (collect_headers_lower_case_last_wins
                           (H1 := NetFixtures.network)
                           [("Content-Type", "text/html"); ("ETag", "1")]
                           "CONTENT-TYPE" "application/json"))).
    vm_compute; discriminate.
Defined.

Lemma rest_request_token_placement_witness :
  is_ticker RevokeTokenRequest = false /\
  exists loader,
    url_loaders_ (snd (issue (H := Fixtures.host) (H0 := Fixtures.parser)
                             (H1 := NetFixtures.network)
                             RevokeTokenRequest NetFixtures.session))
    = [(0%nat, loader)] /\
    query_parameter "access_token" (request_url (request loader)) = Some "tok".
Proof.
  split; [reflexivity|].
  destruct (rest_request_token_placement
              (H := Fixtures.host) (H0 := Fixtures.parser)
              (H1 := NetFixtures.network)
              RevokeTokenRequest NetFixtures.session)
    as (_ & _ & loader & Hlist & _ & _ & Htoken).
  exists loader. split; [exact Hlist|].
  apply (Htoken eq_refl).
Defined.

Lemma token_exchange_feeds_next_request_witness :
  200 <= 200 <= 299 /\
  is_ticker AccountBalancesRequest = false /\
  exists s' loader,
    network_completes (H1 := NetFixtures.network) 0
      (Some (mkURLResponseHead (Some (mkHttpResponseHeaders 200 []))))
      (Some "abc")
      (snd (GetAccessToken (H := Fixtures.locked_host) (H0 := Fixtures.parser)
                           (H1 := NetFixtures.network)
                           (fun ok => recording (AccessToken ok))
                           NetFixtures.session))
    = Some (tt, s') /\
    url_loaders_ (snd (issue (H := Fixtures.locked_host) (H0 := Fixtures.parser)
                             (H1 := NetFixtures.network)
                             AccountBalancesRequest s'))
    = [(allocated s', loader)] /\
    query_parameter "access_token" (request_url (request loader))
    = Some "abc.access_token".
Proof.
  split; [lia|]. split; [reflexivity|].
  destruct (token_exchange_feeds_next_request
              (H := Fixtures.locked_host) (H0 := Fixtures.parser)
              (H1 := NetFixtures.network)
              AccountBalancesRequest 200 [] "abc" NetFixtures.session)
    as (s' & loader & Hrun & _ & Hlist & Htoken); [lia|reflexivity|].
  exists s', loader. split; [exact Hrun|]. split; [exact Hlist|exact Htoken].
Defined.

End RequestFacts.
